(** * Order and payment orchestrator of the kids-fashion backend

    A shallow embedding of [src/main.py] (the handlers
    [create_payment_order], [verify_payment] and [payment_webhook]) with the
    pieces of the Python runtime they rely on: dynamically typed values,
    truthiness, [dict.get], binary64 arithmetic with [round], SHA-256 and
    HMAC, and a document store with [update_one]. *)

From Stdlib Require Import ZArith List String Ascii Bool Lia.
From Stdlib Require Import Floats.SpecFloat.
From stdpp Require Import gmap strings list fin_maps.
Import ListNotations.

#[local] Open Scope string_scope.
#[local] Open Scope list_scope.
#[local] Open Scope Z_scope.

(** ** Python values *)

Module Py.

(** What a JSON body, a pymongo document or a handler result can hold.
    A [dict] keeps its items in insertion order, keys unique. *)
#[warnings="-register-all"]
Inductive value : Type :=
| VNone
| VBool (b : bool)
| VInt (z : Z)
| VFloat (f : spec_float)
| VStr (s : string)
| VList (l : list value)
| VDict (d : list (string * value)).

Abbreviation dict := (list (string * value)).

(** The exceptions that the modelled code can raise.  FastAPI answers an
    [HTTPException] with its status and detail, and any other exception
    with status 500. *)
Inductive exn : Type :=
| HTTPException (status_code : Z) (detail : string)
| AttributeError (msg : string)
| OverflowError (msg : string)
| ValueError (msg : string)
| UnicodeEncodeError (msg : string)
| JSONDecodeError
| RequestException.

Inductive result (A : Type) : Type :=
| Return (a : A)
| Raise (e : exn).
Arguments Return {A} a.
Arguments Raise {A} e.

(** [bool(v)] *)
Definition truthy (v : value) : bool :=
  match v with
  | VNone => false
  | VBool b => b
  | VInt z => negb (z =? 0)
  | VFloat (S754_zero _) => false
  | VFloat _ => true
  | VStr s => negb (String.eqb s "")
  | VList l => match l with [] => false | _ => true end
  | VDict d => match d with [] => false | _ => true end
  end.

(** [a or b] *)
Definition or_ (a b : value) : value := if truthy a then a else b.

(** Item lookup in a dict. *)
Fixpoint lookup (k : string) (d : dict) : option value :=
  match d with
  | [] => None
  | (k', v) :: d' => if String.eqb k k' then Some v else lookup k d'
  end.

(** [d[k] = v]: replaces the value in place, or adds the item at the
    end. *)
Fixpoint setitem (k : string) (v : value) (d : dict) : dict :=
  match d with
  | [] => [(k, v)]
  | (k', v') :: d' =>
      if String.eqb k k' then (k', v) :: d' else (k', v') :: setitem k v d'
  end.

(** [d.get(k, default)] *)
Definition dict_get (d : dict) (k : string) (default : value) : value :=
  match lookup k d with
  | Some v => v
  | None => default
  end.

(** [v.get(k, default)] on an arbitrary value: only a dict has the
    attribute. *)
Definition get (v : value) (k : string) (default : value) : result value :=
  match v with
  | VDict d => Return (dict_get d k default)
  | VNone => Raise (AttributeError "'NoneType' object has no attribute 'get'")
  | VBool _ => Raise (AttributeError "'bool' object has no attribute 'get'")
  | VInt _ => Raise (AttributeError "'int' object has no attribute 'get'")
  | VFloat _ => Raise (AttributeError "'float' object has no attribute 'get'")
  | VStr _ => Raise (AttributeError "'str' object has no attribute 'get'")
  | VList _ => Raise (AttributeError "'list' object has no attribute 'get'")
  end.

(** Structural equality of values, used by the store to compare a stored
    field with a query operand. *)
Definition spec_float_eqb (x y : spec_float) : bool :=
  match x, y with
  | S754_zero a, S754_zero b => Bool.eqb a b
  | S754_infinity a, S754_infinity b => Bool.eqb a b
  | S754_nan, S754_nan => true
  | S754_finite a m e, S754_finite b n f =>
      Bool.eqb a b && Pos.eqb m n && (e =? f)
  | _, _ => false
  end.

Fixpoint value_eqb (x y : value) {struct x} : bool :=
  match x, y with
  | VNone, VNone => true
  | VBool a, VBool b => Bool.eqb a b
  | VInt a, VInt b => a =? b
  | VFloat a, VFloat b => spec_float_eqb a b
  | VStr a, VStr b => String.eqb a b
  | VList l, VList l' =>
      (fix go (l l' : list value) {struct l} : bool :=
         match l, l' with
         | [], [] => true
         | a :: r, b :: r' => value_eqb a b && go r r'
         | _, _ => false
         end) l l'
  | VDict d, VDict d' =>
      (fix go (d d' : dict) {struct d} : bool :=
         match d, d' with
         | [], [] => true
         | (k, a) :: r, (k', b) :: r' =>
             String.eqb k k' && value_eqb a b && go r r'
         | _, _ => false
         end) d d'
  | _, _ => false
  end.

(** [s.encode()]: a [string] is kept as the sequence of its UTF-8 bytes.
    (A [str] with a lone surrogate has no such bytes; request text that may
    hold one is [code_points], encoded by [text_encode].) *)
Definition encode (s : string) : list Z :=
  map (fun b => Z.of_N (Byte.to_N b)) (list_byte_of_string s).

End Py.
Import Py.

(** ** [hashlib.sha256] (FIPS 180-4) on 32-bit words kept in [Z] *)

Module hashlib.

Definition wrap32 (x : Z) : Z := Z.land x 0xFFFFFFFF.
Definition add32 (x y : Z) : Z := wrap32 (x + y).
Definition rotr (n x : Z) : Z :=
  Z.lor (Z.shiftr x n) (wrap32 (Z.shiftl x (32 - n))).
Definition not32 (x : Z) : Z := Z.lxor x 0xFFFFFFFF.

Definition ch (x y z : Z) : Z := Z.lxor (Z.land x y) (Z.land (not32 x) z).
Definition maj (x y z : Z) : Z :=
  Z.lxor (Z.lxor (Z.land x y) (Z.land x z)) (Z.land y z).
Definition bsig0 (x : Z) : Z := Z.lxor (Z.lxor (rotr 2 x) (rotr 13 x)) (rotr 22 x).
Definition bsig1 (x : Z) : Z := Z.lxor (Z.lxor (rotr 6 x) (rotr 11 x)) (rotr 25 x).
Definition ssig0 (x : Z) : Z := Z.lxor (Z.lxor (rotr 7 x) (rotr 18 x)) (Z.shiftr x 3).
Definition ssig1 (x : Z) : Z := Z.lxor (Z.lxor (rotr 17 x) (rotr 19 x)) (Z.shiftr x 10).

(** The constants are the first 32 bits of the fractional parts of the
    cube roots (round constants) and of the square roots (initial hash
    value) of the first primes. *)
Definition is_prime (n : Z) : bool :=
  (1 <? n) && forallb (fun d => negb (n mod d =? 0))
                      (map Z.of_nat (seq 2 (Z.to_nat n - 2))).

Definition primes (count : nat) : list Z :=
  firstn count (filter is_prime (map Z.of_nat (seq 2 310))).

(** The largest [r] below [2^bits] with [r^k <= n]. *)
Fixpoint integer_root (k n : Z) (bits : nat) (r : Z) : Z :=
  match bits with
  | O => r
  | S b =>
      let c := r + 2 ^ Z.of_nat b in
      integer_root k n b (if c ^ k <=? n then c else r)
  end.

Definition fractional_bits (k p : Z) : Z :=
  wrap32 (integer_root k (p * 2 ^ (32 * k)) 36 0).

Definition round_constants : list Z :=
  Eval vm_compute in map (fractional_bits 3) (primes 64).

Record state := State {
  sa : Z; sb : Z; sc : Z; sd : Z; se : Z; sf : Z; sg : Z; sh : Z
}.

Definition initial_state : state :=
  Eval vm_compute in
    let h := map (fractional_bits 2) (primes 8) in
    State (nth 0 h 0) (nth 1 h 0) (nth 2 h 0) (nth 3 h 0)
          (nth 4 h 0) (nth 5 h 0) (nth 6 h 0) (nth 7 h 0).

(** Big-endian packing of bytes into words and back. *)
Definition word_of_bytes (b0 b1 b2 b3 : Z) : Z :=
  Z.lor (Z.lor (Z.shiftl b0 24) (Z.shiftl b1 16)) (Z.lor (Z.shiftl b2 8) b3).

Fixpoint words_of_bytes (fuel : nat) (bs : list Z) : list Z :=
  match fuel, bs with
  | S fuel', b0 :: b1 :: b2 :: b3 :: rest =>
      word_of_bytes b0 b1 b2 b3 :: words_of_bytes fuel' rest
  | _, _ => []
  end.

Definition bytes_of_word (w : Z) : list Z :=
  [Z.land (Z.shiftr w 24) 255; Z.land (Z.shiftr w 16) 255;
   Z.land (Z.shiftr w 8) 255; Z.land w 255].

(** Padding: a 1 bit, zeros up to 56 modulo 64 bytes, then the bit length
    on 8 bytes. *)
Definition pad (msg : list Z) : list Z :=
  let len := Z.of_nat (length msg) in
  let zeros := Z.to_nat ((55 - len) mod 64) in
  let bits := 8 * len in
  msg ++ [128] ++ repeat 0 zeros
      ++ bytes_of_word (wrap32 (Z.shiftr bits 32)) ++ bytes_of_word (wrap32 bits).

(** Message schedule: the 16 words of the block, then 48 derived words.
    [win] is the sliding window of the last 16 words. *)
Fixpoint extend (n : nat) (win : list Z) : list Z :=
  match n with
  | O => []
  | S n' =>
      let w := add32 (add32 (ssig1 (nth 14 win 0)) (nth 9 win 0))
                     (add32 (ssig0 (nth 1 win 0)) (nth 0 win 0)) in
      w :: extend n' (tl win ++ [w])
  end.

Definition schedule (block : list Z) : list Z := block ++ extend 48 block.

Definition step (s : state) (kw : Z * Z) : state :=
  let '(k, w) := kw in
  let t1 := add32 (add32 (add32 (sh s) (bsig1 (se s))) (ch (se s) (sf s) (sg s)))
                  (add32 k w) in
  let t2 := add32 (bsig0 (sa s)) (maj (sa s) (sb s) (sc s)) in
  State (add32 t1 t2) (sa s) (sb s) (sc s) (add32 (sd s) t1) (se s) (sf s) (sg s).

Definition compress (h : state) (block : list Z) : state :=
  let s := fold_left step (combine round_constants (schedule block)) h in
  State (add32 (sa h) (sa s)) (add32 (sb h) (sb s)) (add32 (sc h) (sc s))
        (add32 (sd h) (sd s)) (add32 (se h) (se s)) (add32 (sf h) (sf s))
        (add32 (sg h) (sg s)) (add32 (sh h) (sh s)).

Fixpoint blocks (fuel : nat) (ws : list Z) : list (list Z) :=
  match fuel, ws with
  | _, [] => []
  | O, _ => []
  | S fuel', _ => firstn 16 ws :: blocks fuel' (skipn 16 ws)
  end.

(** [hashlib.sha256(msg).digest()] *)
Definition sha256 (msg : list Z) : list Z :=
  let padded := pad msg in
  let ws := words_of_bytes (length padded) padded in
  let h := fold_left compress (blocks (length ws) ws) initial_state in
  flat_map bytes_of_word
    [sa h; sb h; sc h; sd h; se h; sf h; sg h; sh h].

Definition hex_digit (n : Z) : ascii :=
  ascii_of_N (Z.to_N (if n <? 10 then 48 + n else 87 + n)).

(** [bytes.hex()]: two lower-case digits per byte. *)
Fixpoint hex (bs : list Z) : string :=
  match bs with
  | [] => EmptyString
  | b :: rest =>
      String (hex_digit (Z.shiftr b 4)) (String (hex_digit (Z.land b 15)) (hex rest))
  end.

End hashlib.

(** ** [hmac.new(key, msg, hashlib.sha256).hexdigest()] (RFC 2104) *)

Module hmac.

Definition block_size : nat := 64%nat.

Definition block_key (key : list Z) : list Z :=
  let k := if (block_size <? length key)%nat then hashlib.sha256 key else key in
  k ++ repeat 0 (block_size - length k)%nat.

Definition digest (key msg : list Z) : list Z :=
  let k := block_key key in
  let inner := hashlib.sha256 (map (Z.lxor 0x36) k ++ msg) in
  hashlib.sha256 (map (Z.lxor 0x5c) k ++ inner).

Definition hexdigest (key msg : list Z) : string := hashlib.hex (digest key msg).

End hmac.

(** ** Python [float]: IEEE 754 binary64 *)

Module float.

Definition prec : Z := 53.
Definition emax : Z := 1024.

(** [float(z)] for an [int] *)
Definition of_int (z : Z) : spec_float := binary_normalize prec emax z 0 false.

(** [x * y] *)
Definition mul (x y : spec_float) : spec_float := SFmul prec emax x y.

(** [x / y] *)
Definition div (x y : spec_float) : spec_float := SFdiv prec emax x y.

(** [x >= 0] *)
Definition nonneg (x : spec_float) : bool := SFleb (S754_zero false) x.

(** The integer nearest to [m * 2^e], ties to the even one. *)
Definition nearest_even (m : positive) (e : Z) : Z :=
  if 0 <=? e then Z.pos m * 2 ^ e
  else
    let d := 2 ^ (- e) in
    let q := Z.pos m / d in
    let r := Z.pos m mod d in
    match 2 * r ?= d with
    | Lt => q
    | Gt => q + 1
    | Eq => if Z.even q then q else q + 1
    end.

(** [round(x)] with no [ndigits]: an [int], by round-half-to-even. *)
Definition round (x : spec_float) : result Z :=
  match x with
  | S754_zero _ => Return 0
  | S754_finite s m e =>
      Return (if s then - nearest_even m e else nearest_even m e)
  | S754_infinity _ =>
      Raise (OverflowError "cannot convert float infinity to integer")
  | S754_nan => Raise (ValueError "cannot convert float NaN to integer")
  end.

End float.

(** ** The document store (pymongo) *)

Module pymongo.

Abbreviation document := (list (string * value)).
Abbreviation collection := (list (list (string * value))).
Abbreviation database := (gmap string (list (list (string * value)))).

(** A query [{field: operand}] with a plain operand selects the documents
    whose field equals the operand or is an array that holds it; a [None]
    operand also selects the documents without the field.  An operand
    that is a dict is compared as an embedded document: the query
    operators ([$ne], [$gt], ...) are outside this model, and so is the
    comparison of numbers by value ([5] with [5.0]); the statements about
    events are for operands that are strings. *)
Definition field_matches (stored : option value) (operand : value) : bool :=
  match stored with
  | Some (VList l) =>
      value_eqb (VList l) operand || existsb (fun x => value_eqb x operand) l
  | Some v => value_eqb v operand
  | None => value_eqb VNone operand
  end.

Definition matches (filter : dict) (doc : document) : bool :=
  forallb (fun kv => field_matches (lookup (fst kv) doc) (snd kv)) filter.

(** [{"$set": fields}] *)
Definition apply_set (fields : dict) (doc : document) : document :=
  fold_left (fun d kv => setitem (fst kv) (snd kv) d) fields doc.

(** [find_one(filter)]: the first document selected, with its position. *)
Definition find_one (filter : dict) (coll : collection) : option (nat * document) :=
  list_find (fun doc => matches filter doc = true) coll.

(** [update_one(filter, {"$set": fields})]: the first document selected is
    updated; nothing happens when there is none. *)
Definition update_one (filter fields : dict) (coll : collection) : collection :=
  match find_one filter coll with
  | Some (i, doc) => <[i := apply_set fields doc]> coll
  | None => coll
  end.

(** [insert_one(doc)] *)
Definition insert_one (doc : document) (coll : collection) : collection :=
  coll ++ [doc].

End pymongo.
Import pymongo.

(** ** The world a handler runs in *)

(** The calls that reach the store, in the order they were made. *)
Inductive db_call : Type :=
| InsertOne (coll : string) (doc : document)
| UpdateOne (coll : string) (filter fields : dict).

Record world : Type := World {
  db : database;
  calls : list db_call
}.

(** A handler is a state transformer that returns or raises; what it wrote
    before raising stays written. *)
Definition M (A : Type) : Type := world -> result A * world.

Definition ret {A} (a : A) : M A := fun w => (Return a, w).
Definition raise {A} (e : exn) : M A := fun w => (Raise e, w).
Definition lift {A} (r : result A) : M A := fun w => (r, w).
Definition bind {A B} (m : M A) (f : A -> M B) : M B :=
  fun w =>
    match m w with
    | (Return a, w') => f a w'
    | (Raise e, w') => (Raise e, w')
    end.

Notation "'let*' x ':=' m 'in' k" := (bind m (fun x => k))
  (at level 10, x name, m at level 100, k at level 200).
Notation "m ';;;' k" := (bind m (fun _ => k))
  (at level 100, k at level 200, right associativity).

(** [db[name]]: a collection that was never written to is empty. *)
Definition coll_of (d : database) (name : string) : collection :=
  default [] (d !! name).

(** [db.<name>.update_one(filter, {"$set": fields})], for operands that the
    store takes (see [db_update_one_encoded] for [int]s beyond 8 bytes). *)
Definition db_update_one (name : string) (filter fields : dict) : M unit :=
  fun w =>
    (Return tt,
     World (alter (update_one filter fields) name (db w))
           (calls w ++ [UpdateOne name filter fields])).

(** [db[name].insert_one(doc)] *)
Definition db_insert_one (name : string) (doc : document) : M unit :=
  fun w =>
    (Return tt,
     World (<[name := insert_one doc (coll_of (db w) name)]> (db w))
           (calls w ++ [InsertOne name doc])).

(** Modelled from the spec: the persistence-layer wrapper
    [database.create_document], of which [src/] has only the import and the
    callers.  The spec describes it as the generic document create helper
    over named collections, and counts one document created per call: it
    stores the given fields as one new document of the named collection.
    The identifier that the store assigns, and that the helper returns, is
    left out: the payment handlers ignore it. *)
Definition create_document (collection_name : string) (data : dict) : M unit :=
  db_insert_one collection_name data.

(** ** Process environment and the remote gateway *)

Record request : Type := Request {
  url : string;
  auth : string * string;
  json : value;
  timeout : Z
}.

(** What [requests.post] returns: [resp_json] is the outcome of
    [resp.json()], which raises when the body is not JSON. *)
Record response : Type := Response {
  status_code : Z;
  text : string;
  resp_json : result value
}.

Record environ : Type := Environ {
  getenv : string -> option string;           (* os.getenv *)
  requests_post : request -> result response; (* requests.post *)
  ObjectId : string                           (* str(ObjectId()) of this call *)
}.

(** Truthiness of [os.getenv(..)], an [Optional[str]]. *)
Definition configured (o : option string) : bool :=
  match o with
  | Some s => negb (String.eqb s "")
  | None => false
  end.

(** [o or d] for an [Optional[str]] *)
Definition or_str (o : option string) (d : string) : string :=
  match o with
  | Some s => if String.eqb s "" then d else s
  | None => d
  end.

(** ** Request bodies (main.py, lines 50-64 and 271-274) *)

Module CartItem.
Record t : Type := {
  user_id : string;
  product_id : string;
  quantity : Z
}.
End CartItem.

Record OrderCreate : Type := {
  user_id : string;
  items : list CartItem.t;
  total_price : spec_float
}.

Record VerifyPayload : Type := {
  razorpay_order_id : string;
  razorpay_payment_id : string;
  razorpay_signature : string
}.

Definition model_dump (i : CartItem.t) : value :=
  VDict [("user_id", VStr (CartItem.user_id i));
         ("product_id", VStr (CartItem.product_id i));
         ("quantity", VInt (CartItem.quantity i))].

(** ** The handlers (main.py, lines 220-310) *)

(** [int(round(order.total_price * 100))] *)
Definition amount_paise (total : spec_float) : result Z :=
  float.round (float.mul total (float.of_int 100)).

Definition order_document (order : OrderCreate) (gateway_id : value) : dict :=
  [("user_id", VStr (user_id order));
   ("items", VList (map model_dump (items order)));
   ("total_price", VFloat (total_price order));
   ("payment_status", VStr "pending");
   ("shipping_status", VStr "pending");
   ("razorpay_order_id", gateway_id)].

Definition create_payment_order (env : environ) (order : OrderCreate) : M value :=
  let key_id := getenv env "RAZORPAY_KEY_ID" in
  let key_secret := getenv env "RAZORPAY_KEY_SECRET" in
  let* amount := lift (amount_paise (total_price order)) in
  if configured key_id && configured key_secret then
    let payload :=
      VDict [("amount", VInt amount); ("currency", VStr "INR");
             ("receipt", VStr ("rcpt_" +:+ user_id order))] in
    let* resp :=
      lift (requests_post env
              (Request "https://api.razorpay.com/v1/orders"
                       (or_str key_id "", or_str key_secret "") payload 10)) in
    if 300 <=? status_code resp then
      raise (HTTPException (status_code resp) (text resp))
    else
      let* data := lift (resp_json resp) in
      let* id := lift (get data "id" VNone) in
      create_document "orders" (order_document order id) ;;;
      ret (VDict [("order", data); ("key_id", VStr (or_str key_id ""))])
  else
    let mock_id := "order_" +:+ ObjectId env in
    create_document "orders" (order_document order (VStr mock_id)) ;;;
    ret (VDict [("order", VDict [("id", VStr mock_id); ("amount", VInt amount);
                                 ("currency", VStr "INR")]);
                ("key_id", VStr "rzp_test_mock")]).

(** The signature that [verify_payment] recomputes. *)
Definition generated_signature (key_secret : option string) (body : VerifyPayload) : string :=
  hmac.hexdigest
    (encode (or_str key_secret "mock_secret"))
    (encode (razorpay_order_id body +:+ "|" +:+ razorpay_payment_id body)).
#[global] Arguments generated_signature : simpl never.

Definition verify_payment (env : environ) (body : VerifyPayload) : M value :=
  let key_secret := getenv env "RAZORPAY_KEY_SECRET" in
  let generated := generated_signature key_secret body in
  let is_valid :=
    if configured key_secret then String.eqb generated (razorpay_signature body)
    else true in
  let status := if is_valid then "paid" else "failed" in
  db_update_one "orders"
    [("razorpay_order_id", VStr (razorpay_order_id body))]
    [("payment_status", VStr status);
     ("razorpay_payment_id", VStr (razorpay_payment_id body))] ;;;
  if negb is_valid then raise (HTTPException 400 "Invalid signature")
  else ret (VDict [("ok", VBool true)]).

Definition payment_webhook (payload : dict) : M value :=
  let event := dict_get payload "event" VNone in
  let* payment := lift (get (dict_get payload "payload" (VDict [])) "payment" (VDict [])) in
  let* entity := lift (get payment "entity" (VDict [])) in
  let* order_id := lift (get entity "order_id" VNone) in
  let* status := lift (get entity "status" VNone) in
  (if truthy order_id then
     db_update_one "orders"
       [("razorpay_order_id", order_id)]
       [("payment_status", or_ status (VStr "processing"))]
   else ret tt) ;;;
  ret (VDict [("received", VBool true)]).

(** ** Vocabulary of the statements *)

(** The filter that [verify_payment] and [payment_webhook] select an order
    with. *)
Definition by_gateway_id (order_id : value) : dict :=
  [("razorpay_order_id", order_id)].

(** The orders held by a world. *)
Definition orders (w : world) : collection := coll_of (db w) "orders".

(** The order that a handler's [update_one] selects in [w] for a gateway
    order id: the first one whose [razorpay_order_id] matches. *)
Definition matching_order (w : world) (order_id : value) : option (nat * document) :=
  find_one (by_gateway_id order_id) (orders w).

Definition ok_response : value := VDict [("ok", VBool true)].
Definition received_response : value := VDict [("received", VBool true)].
Definition invalid_signature : exn := HTTPException 400 "Invalid signature".

(** The nested payment entity of a webhook payload,
    [payload.get("payload", {}).get("payment", {}).get("entity", {})]. *)
Definition entity_of (payload : dict) : result value :=
  match get (dict_get payload "payload" (VDict [])) "payment" (VDict []) with
  | Return payment => get payment "entity" (VDict [])
  | Raise e => Raise e
  end.

(** The declared values of [payment_status] (schemas.py, line 45) and the
    transitions of the specification's state machine. *)
Definition payment_status_enum : list string :=
  ["pending"; "paid"; "failed"; "refunded"].

Definition allowed_transition (old new : string) : bool :=
  (String.eqb old "pending" && String.eqb new "paid")
  || (String.eqb old "pending" && String.eqb new "failed")
  || (String.eqb old "paid" && String.eqb new "refunded").

(** [n] is the integer nearest to the exact value of the finite float [x],
    the even one of the two when [x] is half-way. *)
Definition nearest_integer (x : spec_float) (n : Z) : Prop :=
  match x with
  | S754_zero _ => n = 0
  | S754_finite s m e =>
      let v := if s then Z.neg m else Z.pos m in
      if 0 <=? e then n = v * 2 ^ e
      else
        2 * Z.abs (n * 2 ^ (- e) - v) <= 2 ^ (- e)
        /\ (2 * Z.abs (n * 2 ^ (- e) - v) = 2 ^ (- e) -> Z.even n = true)
  | _ => False
  end.

Definition is_finite (x : spec_float) : bool :=
  match x with
  | S754_zero _ | S754_finite _ _ _ => true
  | _ => false
  end.

(** The signature check of [verify_payment] (main.py, line 286) and the
    fields that its [$set] writes. *)
Definition is_valid (env : environ) (body : VerifyPayload) : bool :=
  if configured (getenv env "RAZORPAY_KEY_SECRET")
  then String.eqb (generated_signature (getenv env "RAZORPAY_KEY_SECRET") body)
                  (razorpay_signature body)
  else true.

Definition verify_fields (env : environ) (body : VerifyPayload) : dict :=
  [("payment_status", VStr (if is_valid env body then "paid" else "failed"));
   ("razorpay_payment_id", VStr (razorpay_payment_id body))].

(** The request that [create_payment_order] posts to the gateway. *)
Definition gateway_request (env : environ) (order : OrderCreate) (amount : Z) : request :=
  Request "https://api.razorpay.com/v1/orders"
          (or_str (getenv env "RAZORPAY_KEY_ID") "",
           or_str (getenv env "RAZORPAY_KEY_SECRET") "")
          (VDict [("amount", VInt amount); ("currency", VStr "INR");
                  ("receipt", VStr ("rcpt_" +:+ user_id order))])
          10.

(** Credentials present: [key_id and key_secret] (main.py, line 229). *)
Definition live_mode (env : environ) : bool :=
  configured (getenv env "RAZORPAY_KEY_ID")
  && configured (getenv env "RAZORPAY_KEY_SECRET").

(** The payment status of the order that a gateway order id selects. *)
Definition status_of (w : world) (order_id : string) : option value :=
  match matching_order w (VStr order_id) with
  | Some (_, doc) => lookup "payment_status" doc
  | None => None
  end.

(** The world after one more order document was created. *)
Definition with_order (w : world) (doc : document) : world :=
  World (<["orders" := orders w ++ [doc]]> (db w))
        (calls w ++ [InsertOne "orders" doc]).

(** Mock mode: the synthesized gateway order id and the handler's answer. *)
Definition mock_id (env : environ) : string := "order_" +:+ ObjectId env.

Definition mock_response (env : environ) (amount : Z) : value :=
  VDict [("order", VDict [("id", VStr (mock_id env)); ("amount", VInt amount);
                          ("currency", VStr "INR")]);
         ("key_id", VStr "rzp_test_mock")].

(** Live mode: the handler's answer to a gateway order [data]. *)
Definition live_response (env : environ) (data : value) : value :=
  VDict [("order", data);
         ("key_id", VStr (or_str (getenv env "RAZORPAY_KEY_ID") ""))].

(** A status code outside 200..299. *)
Definition non_2xx (status : Z) : Prop := ~ (200 <= status < 300).

(** The fields that the [$set] of [payment_webhook] writes for an entity
    (main.py, line 308). *)
Definition webhook_fields (ent : dict) : dict :=
  [("payment_status", or_ (dict_get ent "status" VNone) (VStr "processing"))].

(** ** Sample data *)

Definition no_gateway : request -> result response := fun _ => Raise RequestException.

(** No credentials in the environment: mock mode. *)
Definition env_mock : environ :=
  Environ (fun _ => None) no_gateway "64b7f1e2a1b2c3d4e5f60718".

(** Both credentials set; the gateway answers every request with [reply]. *)
Definition env_live (reply : result response) : environ :=
  Environ (fun name =>
             if String.eqb name "RAZORPAY_KEY_ID" then Some "rzp_live_k"
             else if String.eqb name "RAZORPAY_KEY_SECRET" then Some "s3cr3t"
             else None)
          (fun _ => reply) "64b7f1e2a1b2c3d4e5f60718".

Definition gateway_order (id : string) : value :=
  VDict [("id", VStr id); ("entity", VStr "order"); ("status", VStr "created")].

Definition reply_created : result response :=
  Return (Response 200 "{...}" (Return (gateway_order "order_1"))).

(** The literals 149.99, 1e308 and 0.015 as binary64 values. *)
Definition price_149_99 : spec_float := S754_finite false 5277303969603912 (-45).
Definition price_1e308 : spec_float := S754_finite false 5010420900022432 971.
Definition price_0_015 : spec_float := S754_finite false 8646911284551352 (-59).

Definition sample_order : OrderCreate :=
  {| user_id := "u1";
     items := [ {| CartItem.user_id := "u1"; CartItem.product_id := "p1";
                   CartItem.quantity := 2 |} ];
     total_price := price_149_99 |}.

Definition w_empty : world := World ∅ [].

(** One pending order with gateway id [order_1]. *)
Definition w_pending : world :=
  World {[ "orders" := [order_document sample_order (VStr "order_1")] ]} [].

Definition body_signed : VerifyPayload :=
  {| razorpay_order_id := "order_1";
     razorpay_payment_id := "pay_1";
     razorpay_signature := hmac.hexdigest (encode "s3cr3t") (encode "order_1|pay_1") |}.

Definition body_forged : VerifyPayload :=
  {| razorpay_order_id := "order_1";
     razorpay_payment_id := "pay_1";
     razorpay_signature := "forged" |}.

Definition webhook_payload (entity : dict) : dict :=
  [("event", VStr "payment.captured");
   ("payload", VDict [("payment", VDict [("entity", VDict entity)])])].

(** A gateway answer with an informational status and an order body. *)
Definition reply_informational : result response :=
  Return (Response 103 "{...}" (Return (gateway_order "order_1"))).

Definition reply_unauthorized : result response :=
  Return (Response 401 "{error: ...}" (Return (VDict [("error", VStr "auth")]))).

(** A run: an order is created through the gateway, a forged confirmation
    is refused, then a signed one is accepted. *)
Definition w_created : world :=
  snd (create_payment_order (env_live reply_created) sample_order w_empty).
Definition w_refused : world :=
  snd (verify_payment (env_live reply_created) body_forged w_created).
Definition w_accepted : world :=
  snd (verify_payment (env_live reply_created) body_signed w_refused).

(** A gateway event that reports the payment as captured. *)
Definition w_captured : world :=
  snd (payment_webhook
         (webhook_payload [("order_id", VStr "order_1"); ("status", VStr "captured")])
         w_created).

(** ** The admin and cart handlers (main.py, lines 27-31, 202-207, 325-337) *)

(** [res.matched_count] of an [update_one]: 1 when a document is selected. *)
Definition matched_count (filter : dict) (coll : collection) : Z :=
  match find_one filter coll with
  | Some _ => 1
  | None => 0
  end.

(** [db.<name>.update_one(filter, {"$set": fields}).matched_count] *)
Definition db_update_one_matched (name : string) (filter fields : dict) : M Z :=
  fun w =>
    (Return (matched_count filter (coll_of (db w) name)),
     snd (db_update_one name filter fields w)).

(** [to_obj_id]: whatever the constructor [ObjectId(id_str)] of the bson
    library raises becomes a 400.  The constructor is a parameter; it yields
    the value that documents hold as [_id]. *)
Definition to_obj_id (bson_ObjectId : string -> result value) (id_str : string)
  : result value :=
  match bson_ObjectId id_str with
  | Return oid => Return oid
  | Raise _ => Raise (HTTPException 400 "Invalid id")
  end.

(** [if v: update[k] = v] for an optional query parameter. *)
Definition set_if_given (k : string) (v : option string) (update : dict) : dict :=
  match v with
  | Some s => if truthy (VStr s) then setitem k (VStr s) update else update
  | None => update
  end.

(** The [update] dict that [update_order] builds (main.py, lines 327-331). *)
Definition order_update (payment_status shipping_status : option string) : dict :=
  set_if_given "shipping_status" shipping_status
    (set_if_given "payment_status" payment_status []).

Definition update_order (bson_ObjectId : string -> result value)
    (order_id : string) (payment_status shipping_status : option string) : M value :=
  let update := order_update payment_status shipping_status in
  if negb (truthy (VDict update)) then
    raise (HTTPException 400 "No fields to update")
  else
    let* oid := lift (to_obj_id bson_ObjectId order_id) in
    let* matched := db_update_one_matched "orders" [("_id", oid)] update in
    if matched =? 0 then raise (HTTPException 404 "Order not found")
    else ret (VDict [("ok", VBool true)]).

Definition cart_filter (item : CartItem.t) : dict :=
  [("user_id", VStr (CartItem.user_id item));
   ("product_id", VStr (CartItem.product_id item))].

(** An [int] that BSON can hold: 8 bytes, signed. *)
Definition int64 (z : Z) : bool := (- 2 ^ 63 <=? z) && (z <? 2 ^ 63).

Definition bson_scalar_ok (v : value) : bool :=
  match v with
  | VInt z => int64 z
  | _ => true
  end.

(** [update_one] with operands that may be [int]s: pymongo encodes the
    filter and the update before it sends them, and an [int] beyond 8 bytes
    raises OverflowError there, before the store is reached. *)
Definition db_update_one_encoded (name : string) (filter fields : dict) : M Z :=
  fun w =>
    if forallb (fun kv => bson_scalar_ok (snd kv)) (filter ++ fields)
    then db_update_one_matched name filter fields w
    else (Raise (OverflowError "MongoDB can only handle up to 8-byte ints"), w).

Definition update_cart (item : CartItem.t) : M value :=
  let* matched :=
    db_update_one_encoded "cart" (cart_filter item)
      [("quantity", VInt (CartItem.quantity item))] in
  if matched =? 0 then raise (HTTPException 404 "Cart item not found")
  else ret (VDict [("ok", VBool true)]).

(** ** Vocabulary of the further statements *)

(** The items of the cart collection. *)
Definition cart (w : world) : collection := coll_of (db w) "cart".

(** The characters of [bytes.hex()]. *)
Definition lower_hex (c : ascii) : bool :=
  existsb (Ascii.eqb c) (list_ascii_of_string "0123456789abcdef").

(** A string that has the shape of a SHA-256 hex digest. *)
Definition digest_shaped (s : string) : bool :=
  (String.length s =? 64)%nat && forallb lower_hex (list_ascii_of_string s).

(** [-x] on results of [amount_paise]. *)
Definition result_opp (r : result Z) : result Z :=
  match r with
  | Return n => Return (- n)
  | Raise e => Raise e
  end.

(** Further sample data: a stand-in for the bson constructor that takes the
    strings of 24 characters, an order and a cart item that carry ids. *)
Definition sample_ObjectId (s : string) : result value :=
  if (String.length s =? 24)%nat then Return (VStr s)
  else Raise (ValueError "InvalidId").

Definition w_admin : world :=
  World {[ "orders" :=
             [("_id", VStr "64b7f1e2a1b2c3d4e5f60718")
              :: order_document sample_order (VStr "order_1")] ]} [].

Definition sample_item (quantity : Z) : CartItem.t :=
  {| CartItem.user_id := "u1"; CartItem.product_id := "p1";
     CartItem.quantity := quantity |}.

Definition w_cart : world :=
  World {[ "cart" :=
             [[("user_id", VStr "u1"); ("product_id", VStr "p1");
               ("quantity", VInt 2)]] ]} [].

(** A secret in the environment, but no key id. *)
Definition env_secret_only : environ :=
  Environ (fun name =>
             if String.eqb name "RAZORPAY_KEY_SECRET" then Some "s3cr3t" else None)
          no_gateway "64b7f1e2a1b2c3d4e5f60718".

Definition not_found (detail : string) : exn := HTTPException 404 detail.

Definition body_upper : VerifyPayload :=
  {| razorpay_order_id := "order_1";
     razorpay_payment_id := "pay_1";
     razorpay_signature :=
       "C4BA7785E595B717ABD8B4847EAF30E97F23ACBDBE1B8F5CBBF17D28D63B068F" |}.

(** ** Request text (main.py, lines 271-284) *)

(** A [str] field of a request body, as its code points.  JSON delivers a
    lone surrogate (written [\ud800]) as it stands, and such a [str] has no
    UTF-8 encoding: [.encode()] raises UnicodeEncodeError on it. *)
Abbreviation code_points := (list Z).

Definition is_surrogate (c : Z) : bool := (0xD800 <=? c) && (c <=? 0xDFFF).

Definition utf8_bytes (c : Z) : list Z :=
  if c <? 0x80 then [c]
  else if c <? 0x800 then [0xC0 + c / 64; 0x80 + c mod 64]
  else if c <? 0x10000 then
    [0xE0 + c / 4096; 0x80 + (c / 64) mod 64; 0x80 + c mod 64]
  else
    [0xF0 + c / 262144; 0x80 + (c / 4096) mod 64; 0x80 + (c / 64) mod 64;
     0x80 + c mod 64].

(** The [string] that holds the UTF-8 bytes of a text. *)
Definition text_string (t : code_points) : string :=
  string_of_list_ascii
    (map (fun b => ascii_of_N (Z.to_N b)) (flat_map utf8_bytes t)).

(** [t.encode()] *)
Definition text_encode (t : code_points) : result (list Z) :=
  if existsb is_surrogate t then
    Raise (UnicodeEncodeError "'utf-8' codec can't encode character: surrogates not allowed")
  else Return (encode (text_string t)).

(** [VerifyPayload] as the request delivers it. *)
Record VerifyText : Type := {
  order_id_text : code_points;
  payment_id_text : code_points;
  signature_text : code_points
}.

Definition body_of_text (b : VerifyText) : VerifyPayload :=
  {| razorpay_order_id := text_string (order_id_text b);
     razorpay_payment_id := text_string (payment_id_text b);
     razorpay_signature := text_string (signature_text b) |}.

(** [verify_payment] on the text of a request.  The message of the HMAC,
    [f"{order_id}|{payment_id}".encode()] (line 282), is computed first,
    whether or not a secret is set: ids without a UTF-8 encoding make the
    call raise there, before the store is reached.  Past the encoding the
    handler is [verify_payment] on the strings of the UTF-8 bytes. *)
Definition verify_payment_text (env : environ) (b : VerifyText) : M value :=
  lift (text_encode (order_id_text b ++ [124] ++ payment_id_text b)) ;;;
  verify_payment env (body_of_text b).

(** The code points of an ASCII string. *)
Definition ascii_text (s : string) : code_points := encode s.

(** ** Vocabulary of the revised statements *)

(** A value that is absent, null or a string. *)
Definition str_or_none (v : value) : bool :=
  match v with
  | VNone | VStr _ => true
  | _ => false
  end.

(** The payment entity of the payload, when there is one, has an
    [order_id] and a [status] that are each absent, null or a string. *)
Definition webhook_strings (payload : dict) : bool :=
  match entity_of payload with
  | Return (VDict ent) =>
      str_or_none (dict_get ent "order_id" VNone)
      && str_or_none (dict_get ent "status" VNone)
  | _ => true
  end.

(** The gateway took the order: an answer below 300 whose body is an
    object. *)
Definition gateway_accepts (env : environ) (order : OrderCreate) (a : Z)
    (resp : response) (data : dict) : Prop :=
  requests_post env (gateway_request env order a) = Return resp
  /\ status_code resp < 300
  /\ resp_json resp = Return (VDict data).

(** The calls of [create_payment_order] that return: the amount is computed,
    and the call runs in mock mode or the gateway took the order. *)
Definition create_succeeds (env : environ) (order : OrderCreate) : Prop :=
  exists a,
    amount_paise (total_price order) = Return a
    /\ (live_mode env = false
        \/ (live_mode env = true
            /\ exists resp data, gateway_accepts env order a resp data)).

(** Sample data: a gateway answer that is a JSON array, an order whose
    price overflows, a confirmation whose payment id is a lone surrogate. *)
Definition reply_array : result response :=
  Return (Response 200 "[]" (Return (VList []))).

Definition order_1e308 : OrderCreate :=
  {| user_id := "u1"; items := []; total_price := price_1e308 |}.

Definition text_surrogate : VerifyText :=
  {| order_id_text := ascii_text "order_1";
     payment_id_text := [0xD800];
     signature_text := [] |}.

Definition text_unsigned : VerifyText :=
  {| order_id_text := ascii_text "order_1";
     payment_id_text := ascii_text "pay_1";
     signature_text := ascii_text "anything" |}.

(** ** Test vectors of the hash functions *)

Example sha256_empty :
  hashlib.hex (hashlib.sha256 (encode "")) =
  "e3b0c44298fc1c149afbf4c8996fb92427ae41e4649b934ca495991b7852b855".
Proof. vm_compute. reflexivity. Qed.

Example sha256_abc :
  hashlib.hex (hashlib.sha256 (encode "abc")) =
  "ba7816bf8f01cfea414140de5dae2223b00361a396177a9cb410ff61f20015ad".
Proof. vm_compute. reflexivity. Qed.

Example hmac_fox :
  hmac.hexdigest (encode "key") (encode "The quick brown fox jumps over the lazy dog") =
  "f7bc83f430538424b13298e6aa6fb143ef4d59a14946175997479dbc2d1a3cd8".
Proof. vm_compute. reflexivity. Qed.

Example hmac_long_key :
  hmac.hexdigest (encode (String.concat "" (repeat "k" 70))) (encode "order_1|pay_1") =
  "06e15c990da02fd5b5b4cf280cdc712d6a838da78de2313a7c33c09f297323a6".
Proof. vm_compute. reflexivity. Qed.

Example hmac_sample_body :
  razorpay_signature body_signed =
  "c4ba7785e595b717abd8b4847eaf30e97f23acbdbe1b8f5cbbf17d28d63b068f".
Proof. vm_compute. reflexivity. Qed.

(** ** Dictionaries and the store *)

Section Store.

Implicit Types (d doc : document) (coll : collection) (k : string).

Lemma lookup_setitem_eq k v d : lookup k (setitem k v d) = Some v.
Proof.
  induction d as [|[k' v'] d IH]; simpl.
  - by rewrite String.eqb_refl.
  - destruct (String.eqb k k') eqn:E; simpl; rewrite E; [done | apply IH].
Qed.

Lemma lookup_setitem_ne k k' v d :
  k <> k' -> lookup k' (setitem k v d) = lookup k' d.
Proof.
  intros Hne. induction d as [|[k0 v0] d IH]; simpl.
  - by apply String.eqb_neq in Hne; rewrite String.eqb_sym, Hne.
  - destruct (String.eqb k k0) eqn:E; simpl.
    + apply String.eqb_eq in E. subst k0.
      assert (String.eqb k' k = false) as ->
        by (apply String.eqb_neq; congruence).
      done.
    + destruct (String.eqb k' k0); [done | apply IH].
Qed.

Lemma update_one_nil filter fields : update_one filter fields [] = [].
Proof. reflexivity. Qed.

Lemma find_one_lookup filter coll i doc :
  find_one filter coll = Some (i, doc) ->
  coll !! i = Some doc /\ matches filter doc = true.
Proof.
  unfold find_one. intros H. apply list_find_Some in H. tauto.
Qed.

Lemma update_one_found filter fields coll i doc :
  find_one filter coll = Some (i, doc) ->
  update_one filter fields coll = <[i := apply_set fields doc]> coll.
Proof. unfold update_one. by intros ->. Qed.

Lemma update_one_not_found filter fields coll :
  find_one filter coll = None -> update_one filter fields coll = coll.
Proof. unfold update_one. by intros ->. Qed.

Lemma update_one_lookup_found filter fields coll i doc :
  find_one filter coll = Some (i, doc) ->
  update_one filter fields coll !! i = Some (apply_set fields doc).
Proof.
  intros H. rewrite (update_one_found _ _ _ _ _ H).
  apply find_one_lookup in H as [H _].
  apply list_lookup_insert_eq. by eapply lookup_lt_Some.
Qed.

Lemma update_one_lookup_other filter fields coll i doc j :
  find_one filter coll = Some (i, doc) -> j <> i ->
  update_one filter fields coll !! j = coll !! j.
Proof.
  intros H Hne. rewrite (update_one_found _ _ _ _ _ H).
  by apply list_lookup_insert_ne.
Qed.

Lemma update_one_length filter fields coll :
  length (update_one filter fields coll) = length coll.
Proof.
  unfold update_one. destruct (find_one filter coll) as [[i doc]|]; [|done].
  apply length_insert.
Qed.

Lemma coll_of_update_one filter fields name (d : database) :
  coll_of (alter (update_one filter fields) name d) name
  = update_one filter fields (coll_of d name).
Proof.
  unfold coll_of. rewrite lookup_alter_eq.
  by destruct (d !! name).
Qed.

Lemma coll_of_insert name c (d : database) :
  coll_of (<[name := c]> d) name = c.
Proof. unfold coll_of. by rewrite lookup_insert_eq. Qed.

End Store.

(** ** What one run of a handler does *)

Section Runs.

Variables (env : environ) (w : world).

Lemma verify_payment_run body :
  verify_payment env body w =
  (if is_valid env body then Return ok_response else Raise invalid_signature,
   World (alter (update_one (by_gateway_id (VStr (razorpay_order_id body)))
                            (verify_fields env body)) "orders" (db w))
         (calls w ++ [UpdateOne "orders"
                        (by_gateway_id (VStr (razorpay_order_id body)))
                        (verify_fields env body)])).
Proof.
  unfold verify_payment, verify_fields, is_valid, bind, db_update_one.
  destruct (if configured _ then _ else _); reflexivity.
Qed.

Lemma verify_payment_orders body :
  orders (snd (verify_payment env body w)) =
  update_one (by_gateway_id (VStr (razorpay_order_id body)))
             (verify_fields env body) (orders w).
Proof.
  rewrite verify_payment_run. unfold orders; simpl.
  apply coll_of_update_one.
Qed.

(** The order selected by a verification comes out with the computed
    status and the submitted payment id, and keeps its gateway id. *)
Lemma verify_payment_matched body i doc :
  matching_order w (VStr (razorpay_order_id body)) = Some (i, doc) ->
  exists doc',
    orders (snd (verify_payment env body w)) !! i = Some doc'
    /\ lookup "payment_status" doc'
       = Some (VStr (if is_valid env body then "paid" else "failed"))
    /\ lookup "razorpay_payment_id" doc'
       = Some (VStr (razorpay_payment_id body))
    /\ lookup "razorpay_order_id" doc' = lookup "razorpay_order_id" doc.
Proof.
  intros H. exists (apply_set (verify_fields env body) doc).
  rewrite verify_payment_orders.
  split; [by apply update_one_lookup_found |].
  unfold apply_set, verify_fields; simpl.
  repeat split.
  - rewrite lookup_setitem_ne by done. apply lookup_setitem_eq.
  - apply lookup_setitem_eq.
  - by rewrite !lookup_setitem_ne.
Qed.

Lemma verify_payment_unmatched body i doc j :
  matching_order w (VStr (razorpay_order_id body)) = Some (i, doc) ->
  j <> i ->
  orders (snd (verify_payment env body w)) !! j = orders w !! j.
Proof.
  intros H Hne. rewrite verify_payment_orders.
  by eapply update_one_lookup_other.
Qed.

Lemma verify_payment_no_match body :
  matching_order w (VStr (razorpay_order_id body)) = None ->
  orders (snd (verify_payment env body w)) = orders w.
Proof.
  intros H. rewrite verify_payment_orders.
  by apply update_one_not_found.
Qed.

End Runs.

(** ** Signature verification *)

Lemma generated_signature_configured S body :
  S <> "" ->
  generated_signature (Some S) body =
  hmac.hexdigest (encode S)
    (encode (razorpay_order_id body +:+ "|" +:+ razorpay_payment_id body)).
Proof.
  intros HS. unfold generated_signature, or_str.
  by apply String.eqb_neq in HS as ->.
Qed.

Lemma is_valid_configured env S body :
  getenv env "RAZORPAY_KEY_SECRET" = Some S -> S <> "" ->
  is_valid env body =
  String.eqb
    (hmac.hexdigest (encode S)
       (encode (razorpay_order_id body +:+ "|" +:+ razorpay_payment_id body)))
    (razorpay_signature body).
Proof.
  intros HS Hne. unfold is_valid. rewrite HS.
  rewrite generated_signature_configured by done.
  unfold configured. by apply String.eqb_neq in Hne as ->.
Qed.

Lemma is_valid_unconfigured env body :
  configured (getenv env "RAZORPAY_KEY_SECRET") = false -> is_valid env body = true.
Proof. unfold is_valid. by intros ->. Qed.

Lemma verify_payment_outcome env w body :
  fst (verify_payment env body w)
  = if is_valid env body then Return ok_response else Raise invalid_signature.
Proof. by rewrite verify_payment_run. Qed.

Lemma verify_payment_calls env w body :
  calls (snd (verify_payment env body w))
  = calls w ++ [UpdateOne "orders"
                  (by_gateway_id (VStr (razorpay_order_id body)))
                  (verify_fields env body)].
Proof. by rewrite verify_payment_run. Qed.

(** C1. With a secret [S] in the environment, a verification whose
    signature is the hex HMAC-SHA256 of [O|P] under [S] returns [{ok: true}]
    and leaves the order selected by [O] with [payment_status = "paid"]. *)
Theorem verify_payment_accepts_hmac env w (S O P : string) :
  getenv env "RAZORPAY_KEY_SECRET" = Some S ->
  let body :=
    {| razorpay_order_id := O;
       razorpay_payment_id := P;
       razorpay_signature := hmac.hexdigest (encode S) (encode (O +:+ "|" +:+ P)) |} in
  fst (verify_payment env body w) = Return ok_response
  /\ forall i doc,
      matching_order w (VStr O) = Some (i, doc) ->
      exists doc',
        orders (snd (verify_payment env body w)) !! i = Some doc'
        /\ lookup "payment_status" doc' = Some (VStr "paid").
Proof.
  intros HS body.
  assert (is_valid env body = true) as Hv.
  { destruct (configured (Some S)) eqn:Hc.
    - rewrite (is_valid_configured env S) by (try done; by intros ->).
      apply String.eqb_refl.
    - apply is_valid_unconfigured. by rewrite HS. }
  split.
  - by rewrite verify_payment_outcome, Hv.
  - intros i doc Hm.
    destruct (verify_payment_matched env w body i doc Hm) as (doc' & H1 & H2 & _).
    exists doc'. by rewrite Hv in H2.
Qed.

Lemma verify_payment_accepts_hmac_witness :
  let body :=
    {| razorpay_order_id := "order_1";
       razorpay_payment_id := "pay_1";
       razorpay_signature :=
         hmac.hexdigest (encode "s3cr3t") (encode ("order_1" +:+ "|" +:+ "pay_1")) |} in
  fst (verify_payment (env_live reply_created) body w_pending) = Return ok_response
  /\ exists doc',
      orders (snd (verify_payment (env_live reply_created) body w_pending)) !! 0%nat
      = Some doc'
      /\ lookup "payment_status" doc' = Some (VStr "paid").
Proof.
  intros body.
  destruct (verify_payment_accepts_hmac (env_live reply_created) w_pending
              "s3cr3t" "order_1" "pay_1" eq_refl) as [Hret Hdoc].
  split; [exact Hret |].
  apply (Hdoc 0%nat (order_document sample_order (VStr "order_1"))).
  vm_compute. reflexivity.
Defined.

(** C2. With a non-empty secret in the environment, a verification whose
    signature differs from the recomputed one writes
    [payment_status = "failed"] to the selected order and then fails with
    400 "Invalid signature"; the call raises exactly when the signature
    differs, and raises nothing else. *)
Theorem verify_payment_rejects_mismatch env w (S : string) body :
  getenv env "RAZORPAY_KEY_SECRET" = Some S ->
  S <> "" ->
  let expected :=
    hmac.hexdigest (encode S)
      (encode (razorpay_order_id body +:+ "|" +:+ razorpay_payment_id body)) in
  let run := verify_payment env body w in
  (razorpay_signature body <> expected ->
     fst run = Raise invalid_signature
     /\ calls (snd run)
        = calls w ++ [UpdateOne "orders"
                        (by_gateway_id (VStr (razorpay_order_id body)))
                        [("payment_status", VStr "failed");
                         ("razorpay_payment_id", VStr (razorpay_payment_id body))]]
     /\ forall i doc,
         matching_order w (VStr (razorpay_order_id body)) = Some (i, doc) ->
         exists doc',
           orders (snd run) !! i = Some doc'
           /\ lookup "payment_status" doc' = Some (VStr "failed"))
  /\ ((exists e, fst run = Raise e) <-> razorpay_signature body <> expected)
  /\ (forall e, fst run = Raise e -> e = invalid_signature).
Proof.
  intros HS Hne expected run.
  pose proof (is_valid_configured env S body HS Hne) as Hv. fold expected in Hv.
  assert (Hout := verify_payment_outcome env w body). fold run in Hout.
  split; [|split].
  - intros Hsig.
    assert (is_valid env body = false) as Hf.
    { rewrite Hv. apply String.eqb_neq. congruence. }
    split; [by rewrite Hout, Hf |].
    split.
    + subst run. rewrite verify_payment_calls. unfold verify_fields. by rewrite Hf.
    + intros i doc Hm.
      destruct (verify_payment_matched env w body i doc Hm) as (doc' & H1 & H2 & _).
      exists doc'. by rewrite Hf in H2.
  - rewrite Hout, Hv. destruct (String.eqb expected _) eqn:E.
    + apply String.eqb_eq in E. split; [by intros [e ?] | congruence].
    + apply String.eqb_neq in E. split; [congruence | by eexists].
  - intros e. rewrite Hout. destruct (is_valid env body); congruence.
Qed.

Lemma verify_payment_rejects_mismatch_witness :
  fst (verify_payment (env_live reply_created) body_forged w_pending)
  = Raise invalid_signature
  /\ exists doc',
      orders (snd (verify_payment (env_live reply_created) body_forged w_pending)) !! 0%nat
      = Some doc'
      /\ lookup "payment_status" doc' = Some (VStr "failed").
Proof.
  assert ("s3cr3t" <> "") as Hne by discriminate.
  destruct (verify_payment_rejects_mismatch (env_live reply_created) w_pending
              "s3cr3t" body_forged eq_refl Hne) as [Hbad _].
  destruct Hbad as (Hraise & _ & Hdoc).
  { intros Heq. vm_compute in Heq. discriminate Heq. }
  split; [exact Hraise |].
  apply (Hdoc 0%nat (order_document sample_order (VStr "order_1"))).
  vm_compute. reflexivity.
Defined.

(** The encoder on characters of one to four bytes, and on an ASCII id. *)
Example text_string_utf8 :
  encode (text_string [0xE9; 0x20AC; 0x1F600; 0xD7FF])
  = [0xC3; 0xA9; 0xE2; 0x82; 0xAC; 0xF0; 0x9F; 0x98; 0x80; 0xED; 0x9F; 0xBF]
  /\ text_string (ascii_text "order_1") = "order_1".
Proof. split; vm_compute; reflexivity. Qed.

Lemma string_of_list_ascii_app l1 l2 :
  string_of_list_ascii (l1 ++ l2)
  = string_of_list_ascii l1 +:+ string_of_list_ascii l2.
Proof. induction l1 as [|c l1 IH]; simpl; [done |]. by rewrite IH. Qed.

(** The message that is encoded is the one that [verify_payment] signs. *)
Lemma text_string_message (b : VerifyText) :
  text_string (order_id_text b ++ [124] ++ payment_id_text b)
  = razorpay_order_id (body_of_text b) +:+ "|"
    +:+ razorpay_payment_id (body_of_text b).
Proof.
  unfold text_string, body_of_text; simpl.
  by rewrite !flat_map_app, !map_app, !string_of_list_ascii_app.
Qed.

(** C6, as stated, fails: the ids are encoded for the HMAC also when no
    secret is set, so a confirmation whose payment id is a lone surrogate
    makes the call raise; the order it names stays "pending". *)
Lemma verify_payment_lone_surrogate_counterexample :
  configured (getenv env_mock "RAZORPAY_KEY_SECRET") = false
  /\ status_of w_pending "order_1" = Some (VStr "pending")
  /\ verify_payment_text env_mock text_surrogate w_pending
     = (Raise (UnicodeEncodeError
                 "'utf-8' codec can't encode character: surrogates not allowed"),
        w_pending).
Proof. repeat split; vm_compute; reflexivity. Qed.

Lemma text_encode_ids (b : VerifyText) :
  existsb is_surrogate (order_id_text b) = false ->
  existsb is_surrogate (payment_id_text b) = false ->
  exists msg,
    text_encode (order_id_text b ++ [124] ++ payment_id_text b) = Return msg.
Proof.
  intros Ho Hp. unfold text_encode.
  rewrite !existsb_app, Ho, Hp. simpl. by eexists.
Qed.

Lemma verify_payment_text_encodable env w (b : VerifyText) :
  existsb is_surrogate (order_id_text b) = false ->
  existsb is_surrogate (payment_id_text b) = false ->
  verify_payment_text env b w = verify_payment env (body_of_text b) w.
Proof.
  intros Ho Hp. unfold verify_payment_text, bind, lift.
  by destruct (text_encode_ids b Ho Hp) as [msg ->].
Qed.

(** C6, amended. Without a secret in the environment (unset or empty),
    [verify_payment] accepts whatever signature is submitted with ids that
    have a UTF-8 encoding: it returns [{ok: true}], raises nothing, and the
    selected order is left with [payment_status = "paid"]. *)
Theorem verify_payment_mock_accepts_all env w (b : VerifyText) :
  configured (getenv env "RAZORPAY_KEY_SECRET") = false ->
  existsb is_surrogate (order_id_text b) = false ->
  existsb is_surrogate (payment_id_text b) = false ->
  fst (verify_payment_text env b w) = Return ok_response
  /\ forall i doc,
      matching_order w (VStr (text_string (order_id_text b))) = Some (i, doc) ->
      exists doc',
        orders (snd (verify_payment_text env b w)) !! i = Some doc'
        /\ lookup "payment_status" doc' = Some (VStr "paid").
Proof.
  intros Hc Ho Hp. rewrite (verify_payment_text_encodable env w b Ho Hp).
  pose proof (is_valid_unconfigured env (body_of_text b) Hc) as Hv.
  split.
  - by rewrite verify_payment_outcome, Hv.
  - intros i doc Hm.
    destruct (verify_payment_matched env w (body_of_text b) i doc Hm)
      as (doc' & H1 & H2 & _).
    exists doc'. by rewrite Hv in H2.
Qed.

Lemma verify_payment_mock_accepts_all_witness :
  fst (verify_payment_text env_mock text_unsigned w_pending) = Return ok_response
  /\ exists doc',
      orders (snd (verify_payment_text env_mock text_unsigned w_pending)) !! 0%nat
      = Some doc'
      /\ lookup "payment_status" doc' = Some (VStr "paid").
Proof.
  destruct (verify_payment_mock_accepts_all env_mock w_pending text_unsigned
              eq_refl eq_refl eq_refl) as [Hret Hdoc].
  split; [exact Hret |].
  apply (Hdoc 0%nat (order_document sample_order (VStr "order_1"))).
  vm_compute. reflexivity.
Defined.

(** C10. Whenever a verification selects an order, the submitted payment id
    is written to its [razorpay_payment_id], whether the signature check
    passes or fails: a call that raises "Invalid signature" leaves the order
    with [payment_status = "failed"] and the submitted payment id. *)
Theorem verify_payment_records_payment_id env w body i doc :
  matching_order w (VStr (razorpay_order_id body)) = Some (i, doc) ->
  exists doc',
    orders (snd (verify_payment env body w)) !! i = Some doc'
    /\ lookup "razorpay_payment_id" doc' = Some (VStr (razorpay_payment_id body))
    /\ (fst (verify_payment env body w) = Return ok_response ->
        lookup "payment_status" doc' = Some (VStr "paid"))
    /\ (fst (verify_payment env body w) = Raise invalid_signature ->
        lookup "payment_status" doc' = Some (VStr "failed")).
Proof.
  intros Hm.
  destruct (verify_payment_matched env w body i doc Hm) as (doc' & H1 & H2 & H3 & _).
  exists doc'. rewrite verify_payment_outcome.
  repeat split; try done; destruct (is_valid env body); congruence.
Qed.

Lemma verify_payment_records_payment_id_witness :
  exists doc',
    orders (snd (verify_payment (env_live reply_created) body_forged w_pending)) !! 0%nat
    = Some doc'
    /\ lookup "razorpay_payment_id" doc' = Some (VStr "pay_1")
    /\ lookup "payment_status" doc' = Some (VStr "failed").
Proof.
  destruct (verify_payment_records_payment_id (env_live reply_created) w_pending
              body_forged 0%nat (order_document sample_order (VStr "order_1")))
    as (doc' & H1 & H2 & _ & H4).
  { vm_compute. reflexivity. }
  exists doc'. split; [exact H1 | split; [exact H2 |]].
  apply H4. vm_compute. reflexivity.
Defined.


(** ** Order creation *)

Section CreateOrder.

Variables (env : environ) (order : OrderCreate) (w : world).

Lemma create_payment_order_no_amount e :
  amount_paise (total_price order) = Raise e ->
  create_payment_order env order w = (Raise e, w).
Proof.
  intros Ha. unfold create_payment_order, bind, lift. by rewrite Ha.
Qed.

Lemma create_payment_order_mock a :
  amount_paise (total_price order) = Return a ->
  live_mode env = false ->
  create_payment_order env order w
  = (Return (mock_response env a),
     with_order w (order_document order (VStr (mock_id env)))).
Proof.
  intros Ha Hm. unfold create_payment_order, bind, lift.
  rewrite Ha. unfold live_mode in Hm. rewrite Hm. reflexivity.
Qed.

Lemma create_payment_order_no_reply a e :
  amount_paise (total_price order) = Return a ->
  live_mode env = true ->
  requests_post env (gateway_request env order a) = Raise e ->
  create_payment_order env order w = (Raise e, w).
Proof.
  intros Ha Hm Hr. unfold create_payment_order, bind, lift.
  rewrite Ha. unfold live_mode in Hm. rewrite Hm.
  fold (gateway_request env order a). by rewrite Hr.
Qed.

Lemma create_payment_order_rejected a resp :
  amount_paise (total_price order) = Return a ->
  live_mode env = true ->
  requests_post env (gateway_request env order a) = Return resp ->
  300 <= status_code resp ->
  create_payment_order env order w
  = (Raise (HTTPException (status_code resp) (text resp)), w).
Proof.
  intros Ha Hm Hr Hs. unfold create_payment_order, bind, lift.
  rewrite Ha. unfold live_mode in Hm. rewrite Hm.
  fold (gateway_request env order a). rewrite Hr.
  by apply Z.leb_le in Hs as ->.
Qed.

Lemma create_payment_order_created a resp data :
  amount_paise (total_price order) = Return a ->
  live_mode env = true ->
  requests_post env (gateway_request env order a) = Return resp ->
  status_code resp < 300 ->
  resp_json resp = Return (VDict data) ->
  create_payment_order env order w
  = (Return (live_response env (VDict data)),
     with_order w (order_document order (dict_get data "id" VNone))).
Proof.
  intros Ha Hm Hr Hs Hj. unfold create_payment_order, bind, lift.
  rewrite Ha. unfold live_mode in Hm. rewrite Hm.
  fold (gateway_request env order a). rewrite Hr.
  apply Z.leb_gt in Hs as ->. by rewrite Hj.
Qed.

Lemma create_payment_order_bad_body a resp :
  amount_paise (total_price order) = Return a ->
  live_mode env = true ->
  requests_post env (gateway_request env order a) = Return resp ->
  status_code resp < 300 ->
  (forall data, resp_json resp <> Return (VDict data)) ->
  exists e, create_payment_order env order w = (Raise e, w).
Proof.
  intros Ha Hm Hr Hs Hj. unfold create_payment_order, bind, lift.
  rewrite Ha. unfold live_mode in Hm. rewrite Hm.
  fold (gateway_request env order a). rewrite Hr.
  apply Z.leb_gt in Hs as ->.
  destruct (resp_json resp) as [[]|e]; try (by eexists).
  by destruct (Hj d).
Qed.

(** A call that returns went through the mock branch or through a gateway
    answer below 300 with an object body, and created one document. *)
Lemma create_payment_order_returns v w' :
  create_payment_order env order w = (Return v, w') ->
  exists a gid,
    amount_paise (total_price order) = Return a
    /\ w' = with_order w (order_document order gid)
    /\ ((live_mode env = false
         /\ gid = VStr (mock_id env) /\ v = mock_response env a)
        \/ (live_mode env = true
            /\ exists resp data,
                requests_post env (gateway_request env order a) = Return resp
                /\ status_code resp < 300
                /\ resp_json resp = Return (VDict data)
                /\ gid = dict_get data "id" VNone
                /\ v = live_response env (VDict data))).
Proof.
  intros Hrun.
  destruct (amount_paise (total_price order)) as [a|e] eqn:Ha;
    [| rewrite (create_payment_order_no_amount e Ha) in Hrun; discriminate].
  exists a.
  destruct (live_mode env) eqn:Hm.
  2:{ rewrite (create_payment_order_mock a Ha Hm) in Hrun.
      injection Hrun as <- <-. eexists. split; [done|]. split; [done|]. by left. }
  destruct (requests_post env (gateway_request env order a)) as [resp|e] eqn:Hr;
    [| rewrite (create_payment_order_no_reply a e Ha Hm Hr) in Hrun; discriminate].
  destruct (Z.le_gt_cases 300 (status_code resp)) as [Hs|Hs];
    [rewrite (create_payment_order_rejected a resp Ha Hm Hr Hs) in Hrun; discriminate |].
  destruct (resp_json resp) as [[| | | | | |data]|e] eqn:Hj;
    try (destruct (create_payment_order_bad_body a resp Ha Hm Hr Hs) as [e' He'];
         [by rewrite Hj | rewrite He' in Hrun; discriminate]).
  rewrite (create_payment_order_created a resp data Ha Hm Hr Hs Hj) in Hrun.
  injection Hrun as <- <-. eexists. split; [done|]. split; [done|].
  right. split; [done|]. by exists resp, data.
Qed.

End CreateOrder.

Lemma orders_with_order w doc : orders (with_order w doc) = orders w ++ [doc].
Proof. unfold with_order, orders at 1; simpl. apply coll_of_insert. Qed.

Lemma with_order_other_collections w doc name :
  name <> "orders" -> db (with_order w doc) !! name = db w !! name.
Proof. intros Hne. unfold with_order; simpl. by rewrite lookup_insert_ne. Qed.

(** C3, as stated, fails: a gateway answer with status 103 is not a 2xx
    answer, yet the handler takes it for a success, stores the order and
    returns. *)
Lemma create_payment_order_non_2xx_counterexample :
  let run := create_payment_order (env_live reply_informational) sample_order w_empty in
  requests_post (env_live reply_informational)
    (gateway_request (env_live reply_informational) sample_order 14999)
  = Return (Response 103 "{...}" (Return (gateway_order "order_1")))
  /\ non_2xx 103
  /\ fst run = Return (live_response (env_live reply_informational) (gateway_order "order_1"))
  /\ orders (snd run) = [order_document sample_order (VStr "order_1")].
Proof.
  split; [reflexivity |]. split; [unfold non_2xx; lia |].
  split; vm_compute; reflexivity.
Qed.

(** C3, amended. When the gateway answers the order request with a status
    of 300 or more, [create_payment_order] creates no document and makes no
    call to the store (the world is unchanged), and fails with an
    [HTTPException] that carries the gateway's status and body. *)
Theorem create_payment_order_gateway_failure env order w a resp :
  amount_paise (total_price order) = Return a ->
  live_mode env = true ->
  requests_post env (gateway_request env order a) = Return resp ->
  300 <= status_code resp ->
  let run := create_payment_order env order w in
  fst run = Raise (HTTPException (status_code resp) (text resp))
  /\ snd run = w
  /\ orders (snd run) = orders w
  /\ calls (snd run) = calls w.
Proof.
  intros Ha Hm Hr Hs run. subst run.
  rewrite (create_payment_order_rejected env order w a resp Ha Hm Hr Hs).
  by repeat split.
Qed.

Lemma create_payment_order_gateway_failure_witness :
  let run := create_payment_order (env_live reply_unauthorized) sample_order w_pending in
  fst run = Raise (HTTPException 401 "{error: ...}")
  /\ snd run = w_pending
  /\ orders (snd run) = orders w_pending
  /\ calls (snd run) = calls w_pending.
Proof.
  apply (create_payment_order_gateway_failure (env_live reply_unauthorized)
           sample_order w_pending 14999
           (Response 401 "{error: ...}" (Return (VDict [("error", VStr "auth")])))).
  - vm_compute. reflexivity.
  - reflexivity.
  - reflexivity.
  - simpl. lia.
Defined.

(** C4, as stated, fails: in mock mode, and after a gateway answer with
    status 200, a call can store nothing.  A price whose product with 100
    overflows makes the call raise before the mock order is stored, and a
    gateway body that is a JSON array makes it raise before the order is
    stored. *)
Lemma create_payment_order_not_created_counterexample :
  (live_mode env_mock = false
   /\ create_payment_order env_mock order_1e308 w_empty
      = (Raise (OverflowError "cannot convert float infinity to integer"), w_empty))
  /\ (live_mode (env_live reply_array) = true
      /\ requests_post (env_live reply_array)
           (gateway_request (env_live reply_array) sample_order 14999)
         = Return (Response 200 "[]" (Return (VList [])))
      /\ create_payment_order (env_live reply_array) sample_order w_empty
         = (Raise (AttributeError "'list' object has no attribute 'get'"), w_empty)).
Proof. repeat split; vm_compute; reflexivity. Qed.

(** C4, amended. [create_payment_order] returns exactly when the amount is
    computed and the call runs in mock mode or the gateway answers below 300
    with an object as body.  Every call that returns has created exactly one
    document, in [orders], with [payment_status] and [shipping_status]
    "pending" and with the gateway order id: in mock mode the synthesized
    ["order_" + ObjectId], which is also the id in the answer, whose
    [key_id] is "rzp_test_mock"; in live mode the [id] of the gateway's
    answer. *)
Theorem create_payment_order_returns_iff env order w :
  ((exists v w', create_payment_order env order w = (Return v, w'))
   <-> create_succeeds env order)
  /\ forall v w',
      create_payment_order env order w = (Return v, w') ->
      exists doc gid,
        orders w' = orders w ++ [doc]
        /\ calls w' = calls w ++ [InsertOne "orders" doc]
        /\ (forall name, name <> "orders" -> db w' !! name = db w !! name)
        /\ lookup "payment_status" doc = Some (VStr "pending")
        /\ lookup "shipping_status" doc = Some (VStr "pending")
        /\ lookup "razorpay_order_id" doc = Some gid
        /\ ((live_mode env = false
             /\ gid = VStr ("order_" +:+ ObjectId env)
             /\ get v "key_id" VNone = Return (VStr "rzp_test_mock")
             /\ exists o, get v "order" VNone = Return o /\ get o "id" VNone = Return gid)
            \/ (live_mode env = true
                /\ exists a resp data,
                    gateway_accepts env order a resp data
                    /\ gid = dict_get data "id" VNone
                    /\ get v "order" VNone = Return (VDict data))).
Proof.
  split.
  - split.
    + intros (v & w' & Hrun).
      destruct (create_payment_order_returns env order w v w' Hrun)
        as (a & gid & Ha & _ & Hmode).
      exists a. split; [done |].
      destruct Hmode as [(Hm & _) | (Hm & resp & data & Hr & Hs & Hj & _)];
        [by left | right].
      split; [done |]. by exists resp, data.
    + intros (a & Ha & [Hm | (Hm & resp & data & Hr & Hs & Hj)]).
      * eexists _, _. by apply (create_payment_order_mock env order w a).
      * eexists _, _.
        by apply (create_payment_order_created env order w a resp data).
  - intros v w' Hrun.
    destruct (create_payment_order_returns env order w v w' Hrun)
      as (a & gid & Ha & -> & Hmode).
    exists (order_document order gid), gid.
    split; [apply orders_with_order |].
    split; [reflexivity |].
    split; [intros name Hne; by apply with_order_other_collections |].
    do 3 (split; [reflexivity |]).
    destruct Hmode as [(Hm & -> & ->) | (Hm & resp & data & Hr & Hs & Hj & -> & ->)].
    + left. repeat split; try done. by eexists.
    + right. split; [done |]. by exists a, resp, data.
Qed.

Lemma create_payment_order_returns_iff_witness :
  let env := env_live reply_created in
  exists v w' doc,
    create_payment_order env sample_order w_pending = (Return v, w')
    /\ orders w' = orders w_pending ++ [doc]
    /\ lookup "payment_status" doc = Some (VStr "pending")
    /\ lookup "shipping_status" doc = Some (VStr "pending")
    /\ lookup "razorpay_order_id" doc = Some (VStr "order_1").
Proof.
  intros env.
  destruct (create_payment_order_returns_iff env sample_order w_pending)
    as [[_ Hreturns] Hstored].
  destruct Hreturns as (v & w' & Hrun).
  { exists 14999. split; [vm_compute; reflexivity |]. right.
    split; [reflexivity |].
    exists (Response 200 "{...}" (Return (gateway_order "order_1"))),
      [("id", VStr "order_1"); ("entity", VStr "order"); ("status", VStr "created")].
    repeat split; try (simpl; lia). }
  destruct (Hstored v w' Hrun) as (doc & gid & H1 & _ & _ & H4 & H5 & H6 & Hmode).
  exists v, w', doc. split; [exact Hrun |]. split; [exact H1 |].
  split; [exact H4 |]. split; [exact H5 |].
  destruct Hmode as [(Hm & _) | (_ & a & resp & data & (Hr & _ & Hj) & Hgid & _)].
  - vm_compute in Hm. discriminate Hm.
  - rewrite H6, Hgid.
    assert (resp = Response 200 "{...}" (Return (gateway_order "order_1"))) as ->
      by (vm_compute in Hr; by injection Hr as <-).
    simpl in Hj. injection Hj as <-. reflexivity.
Defined.

(** ** Webhook events *)

Lemma payment_webhook_run payload w :
  payment_webhook payload w =
  match entity_of payload with
  | Return (VDict ent) =>
      let order_id := dict_get ent "order_id" VNone in
      if truthy order_id then
        (Return received_response,
         World (alter (update_one (by_gateway_id order_id) (webhook_fields ent))
                      "orders" (db w))
               (calls w ++ [UpdateOne "orders" (by_gateway_id order_id)
                              (webhook_fields ent)]))
      else (Return received_response, w)
  | Return v =>
      (match get v "order_id" VNone with
       | Raise e => Raise e
       | Return _ => Return received_response
       end, w)
  | Raise e => (Raise e, w)
  end.
Proof.
  unfold payment_webhook, entity_of, bind, lift.
  destruct (get (dict_get payload "payload" (VDict [])) "payment" (VDict []))
    as [payment|e]; [|done].
  destruct (get payment "entity" (VDict [])) as [entity|e]; [|done].
  destruct entity; try done. simpl.
  by destruct (truthy _).
Qed.

Lemma truthy_dict_get ent k :
  truthy (dict_get ent k VNone) = true <->
  exists v, lookup k ent = Some v /\ truthy v = true.
Proof.
  unfold dict_get. destruct (lookup k ent) as [v|]; simpl.
  - split; [by exists v | by intros (? & [= <-] & ?)].
  - split; [done | by intros (? & ? & _)].
Qed.

Lemma app_singleton_ne {A} (l : list A) (c : A) : l ++ [c] <> l.
Proof.
  intros H. apply (f_equal length) in H. rewrite length_app in H. simpl in H. lia.
Qed.

Lemma payment_webhook_orders payload w ent :
  entity_of payload = Return (VDict ent) ->
  truthy (dict_get ent "order_id" VNone) = true ->
  orders (snd (payment_webhook payload w)) =
  update_one (by_gateway_id (dict_get ent "order_id" VNone)) (webhook_fields ent)
             (orders w).
Proof.
  intros He Ht. rewrite payment_webhook_run, He. simpl. rewrite Ht.
  unfold orders; simpl. apply coll_of_update_one.
Qed.

(** C7, as stated, fails twice.  An entity that holds the order id [""]
    contains an [order_id], yet nothing is written; and an entity that
    supplies the status [""] gets "processing" written, not the string it
    supplied. *)
Lemma payment_webhook_falsy_fields_counterexample :
  let empty_id := [("order_id", VStr ""); ("status", VStr "captured")] in
  let empty_status := [("order_id", VStr "order_1"); ("status", VStr "")] in
  (entity_of (webhook_payload empty_id) = Return (VDict empty_id)
   /\ lookup "order_id" empty_id = Some (VStr "")
   /\ payment_webhook (webhook_payload empty_id) w_pending
      = (Return received_response, w_pending))
  /\ (entity_of (webhook_payload empty_status) = Return (VDict empty_status)
      /\ lookup "status" empty_status = Some (VStr "")
      /\ status_of (snd (payment_webhook (webhook_payload empty_status) w_pending))
           "order_1"
         = Some (VStr "processing")).
Proof. repeat split; vm_compute; reflexivity. Qed.

(** C7, amended. For a payload whose payment entity has an [order_id] and a
    [status] that are each absent, null or a string, [payment_webhook] calls
    the store exactly when the entity holds a truthy [order_id] (a string
    that is not empty); otherwise the world is unchanged.  The one call is
    an [update_one] on [orders] that sets [payment_status] of the order
    selected by that id to the supplied status when that is truthy,
    whatever string it is, and to "processing" otherwise. *)
Theorem payment_webhook_write_iff_truthy_order_id payload w :
  webhook_strings payload = true ->
  let w' := snd (payment_webhook payload w) in
  (calls w' <> calls w <->
   exists ent order_id,
     entity_of payload = Return (VDict ent)
     /\ lookup "order_id" ent = Some order_id /\ truthy order_id = true)
  /\ (calls w' = calls w -> w' = w)
  /\ forall ent order_id,
      entity_of payload = Return (VDict ent) ->
      lookup "order_id" ent = Some order_id ->
      truthy order_id = true ->
      let supplied := dict_get ent "status" VNone in
      let status := if truthy supplied then supplied else VStr "processing" in
      (exists s, order_id = VStr s /\ s <> "")
      /\ (exists s, status = VStr s /\ s <> "")
      /\ calls w' = calls w ++ [UpdateOne "orders" (by_gateway_id order_id)
                                  [("payment_status", status)]]
      /\ forall i doc,
          matching_order w order_id = Some (i, doc) ->
          exists doc',
            orders w' !! i = Some doc'
            /\ lookup "payment_status" doc' = Some status.
Proof.
  intros Hstr w'. subst w'.
  split; [|split].
  - rewrite payment_webhook_run. split.
    + destruct (entity_of payload) as [[| | | | | |ent]|e]; simpl; try done.
      destruct (truthy (dict_get ent "order_id" VNone)) eqn:Ht; [|done].
      intros _. apply truthy_dict_get in Ht as (v & Hl & Hv).
      by exists ent, v.
    + intros (ent & v & -> & Hl & Hv).
      assert (truthy (dict_get ent "order_id" VNone) = true) as Ht
        by (apply truthy_dict_get; eauto).
      simpl. rewrite Ht. simpl. apply app_singleton_ne.
  - rewrite payment_webhook_run.
    destruct (entity_of payload) as [[| | | | | |ent]|e]; simpl; try done.
    destruct (truthy (dict_get ent "order_id" VNone)); [|done].
    simpl. intros H. by destruct (app_singleton_ne _ _ H).
  - intros ent order_id He Hl Hv supplied status.
    assert (dict_get ent "order_id" VNone = order_id) as Hid
      by (unfold dict_get; by rewrite Hl).
    assert (truthy (dict_get ent "order_id" VNone) = true) as Ht
      by (by rewrite Hid).
    unfold webhook_strings in Hstr. rewrite He, Hid in Hstr.
    apply andb_prop in Hstr as [Hoid Hst]. fold supplied in Hst.
    split.
    { destruct order_id as [| | | |s| |]; try discriminate.
      exists s. split; [done |]. intros ->. discriminate. }
    split.
    { subst status. destruct supplied as [| | | |s| |]; try discriminate.
      - by exists "processing".
      - simpl. destruct (String.eqb s "") eqn:E; simpl.
        + by exists "processing".
        + exists s. split; [done |]. by apply String.eqb_neq. }
    split.
    + rewrite payment_webhook_run, He. simpl. rewrite Ht. simpl.
      by rewrite Hid.
    + intros i doc Hm. exists (apply_set (webhook_fields ent) doc).
      rewrite (payment_webhook_orders payload w ent He Ht), Hid.
      split; [by apply update_one_lookup_found |].
      unfold apply_set, webhook_fields; simpl. apply lookup_setitem_eq.
Qed.

Lemma payment_webhook_write_iff_truthy_order_id_witness :
  let payload :=
    webhook_payload [("order_id", VStr "order_1"); ("status", VStr "captured")] in
  exists doc',
    orders (snd (payment_webhook payload w_pending)) !! 0%nat = Some doc'
    /\ lookup "payment_status" doc' = Some (VStr "captured").
Proof.
  intros payload.
  destruct (payment_webhook_write_iff_truthy_order_id payload w_pending eq_refl)
    as (_ & _ & Hw).
  destruct (Hw [("order_id", VStr "order_1"); ("status", VStr "captured")]
              (VStr "order_1") eq_refl eq_refl eq_refl) as (_ & _ & _ & Hdoc).
  apply (Hdoc 0%nat (order_document sample_order (VStr "order_1"))).
  vm_compute. reflexivity.
Defined.

(** C8 does not hold of the code: a payload whose ["payload"] member is
    null makes the handler raise (an internal error for the gateway)
    instead of acknowledging the event. *)
Theorem payment_webhook_null_payload_raises :
  payment_webhook [("event", VStr "payment.captured"); ("payload", VNone)] w_pending
  = (Raise (AttributeError "'NoneType' object has no attribute 'get'"), w_pending).
Proof. reflexivity. Qed.

(** Where the nested members are objects (or absent), the event is
    acknowledged. *)
Lemma payment_webhook_acknowledges payload w ent :
  entity_of payload = Return (VDict ent) ->
  fst (payment_webhook payload w) = Return received_response.
Proof.
  intros He. rewrite payment_webhook_run, He. simpl.
  by destruct (truthy _).
Qed.

(** ** The payment status of an order over time *)

(** C5, as stated, fails.  After an order was created through the gateway,
    a forged confirmation sets it to "failed" and a signed one then moves it
    out of "failed" to "paid", which is not a transition of the state
    machine; and a webhook event that reports "captured" writes that value,
    which the enumeration does not have. *)
Lemma payment_status_transitions_counterexample :
  status_of w_created "order_1" = Some (VStr "pending")
  /\ status_of w_refused "order_1" = Some (VStr "failed")
  /\ status_of w_accepted "order_1" = Some (VStr "paid")
  /\ allowed_transition "failed" "paid" = false
  /\ status_of w_captured "order_1" = Some (VStr "captured")
  /\ existsb (String.eqb "captured") payment_status_enum = false.
Proof. repeat split; vm_compute; reflexivity. Qed.

(** C5, amended. [verify_payment] overwrites the payment status of the
    order it selects with "paid" (signature accepted) or "failed"
    (signature refused) whatever the status was before, and leaves every
    other order as it was. *)
Theorem verify_payment_overwrites_status env w body j doc :
  orders w !! j = Some doc ->
  exists doc',
    orders (snd (verify_payment env body w)) !! j = Some doc'
    /\ ((matching_order w (VStr (razorpay_order_id body)) = Some (j, doc)
         /\ lookup "payment_status" doc'
            = Some (VStr (if is_valid env body then "paid" else "failed")))
        \/ (matching_order w (VStr (razorpay_order_id body)) <> Some (j, doc)
            /\ doc' = doc)).
Proof.
  intros Hj.
  destruct (matching_order w (VStr (razorpay_order_id body))) as [[i d]|] eqn:Hm.
  - destruct (decide (j = i)) as [->|Hne].
    + pose proof (find_one_lookup _ _ _ _ Hm) as [Hi _].
      assert (d = doc) as -> by (unfold orders in *; congruence).
      destruct (verify_payment_matched env w body i doc Hm) as (doc' & H1 & H2 & _).
      exists doc'. split; [done |]. by left.
    + exists doc. rewrite (verify_payment_unmatched env w body i d j Hm Hne).
      split; [done |]. right. split; [congruence | done].
  - exists doc. rewrite (verify_payment_no_match env w body Hm).
    split; [done |]. by right.
Qed.

Lemma verify_payment_overwrites_status_witness :
  exists doc',
    orders (snd (verify_payment (env_live reply_created) body_signed w_refused)) !! 0%nat
    = Some doc'
    /\ lookup "payment_status" doc' = Some (VStr "paid").
Proof.
  destruct (verify_payment_overwrites_status (env_live reply_created) w_refused
              body_signed 0%nat
              (apply_set (verify_fields (env_live reply_created) body_forged)
                 (order_document sample_order (VStr "order_1"))))
    as (doc' & H1 & [[_ H2] | [Hno _]]).
  - vm_compute. reflexivity.
  - exists doc'. split; [exact H1 |]. rewrite H2. vm_compute. reflexivity.
  - exfalso. apply Hno. vm_compute. reflexivity.
Defined.

(** ** The amount in minor units *)

Lemma of_int_100 : float.of_int 100 = S754_finite false 7036874417766400 (-46).
Proof. reflexivity. Qed.

(** Rounding a product keeps the sign it was given. *)
Lemma binary_round_aux_sign prec emax sx mx ex lx s m e :
  binary_round_aux prec emax sx mx ex lx = S754_finite s m e -> s = sx.
Proof.
  unfold binary_round_aux.
  destruct (shr_fexp prec emax mx ex lx) as [mrs' e'].
  destruct (shr_fexp prec emax _ e' loc_Exact) as [mrs'' e''].
  destruct (shr_m mrs''); try discriminate.
  destruct (Z.leb e'' _); [|discriminate].
  by intros [= -> _ _].
Qed.

Lemma nonneg_finite_sign s m e :
  float.nonneg (S754_finite s m e) = true -> s = false.
Proof. by destruct s. Qed.

Lemma mul_100_sign x s m e :
  float.nonneg x = true ->
  float.mul x (float.of_int 100) = S754_finite s m e -> s = false.
Proof.
  intros Hx. rewrite of_int_100.
  destruct x as [s0|s0| |s0 m0 e0]; simpl; try discriminate.
  apply nonneg_finite_sign in Hx as ->.
  intros H. by apply binary_round_aux_sign in H.
Qed.

Lemma nearest_even_nonneg m e : 0 <= float.nearest_even m e.
Proof.
  unfold float.nearest_even.
  destruct (0 <=? e) eqn:He.
  - apply Z.leb_le in He. apply Z.mul_nonneg_nonneg; [lia | by apply Z.pow_nonneg].
  - apply Z.leb_gt in He.
    assert (0 < 2 ^ (- e)) as Hd by (apply Z.pow_pos_nonneg; lia).
    assert (0 <= Z.pos m / 2 ^ (- e)) as Hq by (apply Z.div_pos; lia).
    simpl. destruct (_ ?= _); [destruct (Z.even _) | |]; lia.
Qed.

(** [nearest_even] is within one half of the exact value, and even at a
    tie. *)
Lemma nearest_even_nearest m e :
  nearest_integer (S754_finite false m e) (float.nearest_even m e).
Proof.
  unfold nearest_integer, float.nearest_even.
  destruct (0 <=? e) eqn:He; [done |].
  apply Z.leb_gt in He.
  set (d := 2 ^ (- e)).
  assert (0 < d) as Hd by (apply Z.pow_pos_nonneg; lia).
  pose proof (Z.div_mod (Z.pos m) d ltac:(lia)) as Hdm.
  pose proof (Z.mod_pos_bound (Z.pos m) d Hd) as Hr.
  set (q := Z.pos m / d) in *. set (r := Z.pos m mod d) in *.
  cbv zeta. clearbody q r d.
  assert (q * d - Z.pos m = - r) as Hdown by (rewrite Hdm; ring).
  assert ((q + 1) * d - Z.pos m = d - r) as Hup by (rewrite Hdm; ring).
  destruct (2 * r ?= d) eqn:Hc.
  - apply Z.compare_eq in Hc.
    destruct (Z.even q) eqn:Hq.
    + rewrite Hdown. split; [lia | done].
    + rewrite Hup. split; [lia |]. intros _.
      rewrite Z.even_add, Hq. reflexivity.
  - change (2 * r < d) in Hc. rewrite Hdown.
    split; [lia | intros; exfalso; lia].
  - apply Z.compare_gt_iff in Hc. rewrite Hup.
    split; [lia | intros; exfalso; lia].
Qed.

Lemma round_finite x :
  is_finite x = true -> exists n, float.round x = Return n /\ nearest_integer x n.
Proof.
  destruct x as [s|s| |s m e]; try discriminate; intros _.
  - by exists 0.
  - destruct s.
    + exists (- float.nearest_even m e). split; [done |].
      pose proof (nearest_even_nearest m e) as H.
      unfold nearest_integer in *.
      destruct (0 <=? e); [lia |].
      destruct H as [H1 H2].
      rewrite Z.even_opp.
      split; [lia | intros; apply H2; lia].
    + exists (float.nearest_even m e). split; [done | apply nearest_even_nearest].
Qed.

(** C9, as stated, fails: 1e308 is a price that is not negative, but its
    product with 100 overflows to infinity and [round] raises; no amount is
    computed and the call ends in an internal error. *)
Lemma amount_paise_overflow_counterexample :
  float.nonneg price_1e308 = true
  /\ valid_binary float.prec float.emax price_1e308 = true
  /\ amount_paise price_1e308
     = Raise (OverflowError "cannot convert float infinity to integer")
  /\ (forall w, create_payment_order env_mock
                  {| user_id := "u1"; items := []; total_price := price_1e308 |} w
                = (Raise (OverflowError "cannot convert float infinity to integer"), w)).
Proof.
  split; [vm_compute; reflexivity |].
  split; [vm_compute; reflexivity |].
  assert (amount_paise price_1e308
          = Raise (OverflowError "cannot convert float infinity to integer")) as Ha
    by (vm_compute; reflexivity).
  split; [exact Ha |].
  intros w. by apply create_payment_order_no_amount.
Qed.

(** C9, amended. For every price that is not negative and whose binary64
    product with 100 is finite, the amount is computed, is an integer that
    is not negative, and is the integer nearest to that product (the even
    one at a tie). *)
Theorem amount_paise_rounds_product x :
  float.nonneg x = true ->
  is_finite (float.mul x (float.of_int 100)) = true ->
  exists n,
    amount_paise x = Return n
    /\ 0 <= n
    /\ nearest_integer (float.mul x (float.of_int 100)) n.
Proof.
  intros Hx Hfin. unfold amount_paise.
  destruct (round_finite _ Hfin) as (n & Hn & Hnear).
  exists n. split; [done |]. split; [|done].
  destruct (float.mul x (float.of_int 100)) as [s|s| |s m e] eqn:Hp;
    try discriminate.
  - simpl in Hn. by injection Hn as <-.
  - apply (mul_100_sign x s m e Hx) in Hp as ->.
    simpl in Hn. injection Hn as <-. apply nearest_even_nonneg.
Qed.

Lemma amount_paise_rounds_product_witness :
  exists n,
    amount_paise price_149_99 = Return n
    /\ 0 <= n
    /\ nearest_integer (float.mul price_149_99 (float.of_int 100)) n.
Proof.
  apply (amount_paise_rounds_product price_149_99).
  - vm_compute. reflexivity.
  - vm_compute. reflexivity.
Defined.

(** The sample prices are the binary64 values of their literals: a
    correctly rounded quotient or conversion of integers. *)
Example sample_prices :
  float.div (float.of_int 14999) (float.of_int 100) = price_149_99
  /\ float.div (float.of_int 15) (float.of_int 1000) = price_0_015
  /\ float.of_int (10 ^ 308) = price_1e308.
Proof. repeat split; vm_compute; reflexivity. Qed.

(** The example of the specification. *)
Example amount_paise_149_99 : amount_paise price_149_99 = Return 14999.
Proof. vm_compute. reflexivity. Qed.

(** A price whose binary64 product with 100 is a tie: the product of 0.015
    is 1.5 exactly and rounds to the even 2, while the exact product of the
    binary64 value of 0.015 by 100 is below 1.5 and nearer to 1. *)
Example amount_paise_0_015 :
  float.mul price_0_015 (float.of_int 100) = S754_finite false 6755399441055744 (-52)
  /\ amount_paise price_0_015 = Return 2
  /\ float.nearest_even (8646911284551352 * 100) (-59) = 1.
Proof. repeat split; vm_compute; reflexivity. Qed.

(** ** More on dictionaries and [update_one] *)

Section StoreFrame.

Implicit Types (d doc : document) (coll : collection) (k : string).

Lemma setitem_same k v d : lookup k d = Some v -> setitem k v d = d.
Proof.
  induction d as [|[k' v'] d IH]; simpl; [done |].
  destruct (String.eqb k k') eqn:E.
  - by intros [= ->].
  - intros H. by rewrite IH.
Qed.

(** A [$set] leaves the fields it does not name. *)
Lemma lookup_apply_set_other fields k d :
  ~ In k (map fst fields) -> lookup k (apply_set fields d) = lookup k d.
Proof.
  unfold apply_set. revert d.
  induction fields as [|[k' v'] fields IH]; intros d Hk; simpl in *; [done |].
  rewrite IH by tauto.
  apply lookup_setitem_ne. intros ->. tauto.
Qed.

(** A document matches by the fields that the filter names only. *)
Lemma matches_ext filter d d' :
  (forall k, In k (map fst filter) -> lookup k d' = lookup k d) ->
  matches filter d' = matches filter d.
Proof.
  unfold matches. induction filter as [|[k v] filter IH]; intros H; simpl in *; [done |].
  rewrite (H k) by tauto. f_equal. apply IH. intros k' Hk'. apply H. tauto.
Qed.

Lemma matches_apply_set filter fields d :
  (forall k, In k (map fst filter) -> ~ In k (map fst fields)) ->
  matches filter (apply_set fields d) = matches filter d.
Proof.
  intros H. apply matches_ext. intros k Hk. apply lookup_apply_set_other. by apply H.
Qed.

(** Every document comes out of [update_one] as it was, or with the fields
    set if it matched. *)
Lemma update_one_lookup filter fields coll j doc :
  coll !! j = Some doc ->
  exists doc',
    update_one filter fields coll !! j = Some doc'
    /\ (doc' = doc
        \/ (find_one filter coll = Some (j, doc) /\ doc' = apply_set fields doc)).
Proof.
  intros Hj.
  destruct (find_one filter coll) as [[i d]|] eqn:Hf.
  - destruct (decide (j = i)) as [->|Hne].
    + pose proof (find_one_lookup _ _ _ _ Hf) as [Hi _].
      assert (d = doc) as -> by congruence.
      exists (apply_set fields doc).
      split; [by apply update_one_lookup_found | by right].
    + exists doc. split; [|by left].
      by rewrite (update_one_lookup_other _ _ _ _ _ _ Hf Hne).
  - exists doc. rewrite (update_one_not_found _ _ _ Hf). by split; [|left].
Qed.

(** The document that was selected is selected again after the update when
    the [$set] does not touch the fields of the filter. *)
Lemma find_one_update_one filter fields coll i d :
  (forall k, In k (map fst filter) -> ~ In k (map fst fields)) ->
  find_one filter coll = Some (i, d) ->
  find_one filter (update_one filter fields coll) = Some (i, apply_set fields d).
Proof.
  intros Hkeys Hf. rewrite (update_one_found _ _ _ _ _ Hf).
  unfold find_one in *. apply list_find_Some in Hf as (Hi & Hm & Hbefore).
  apply list_find_Some. split; [|split].
  - apply list_lookup_insert_eq. by eapply lookup_lt_Some.
  - by rewrite matches_apply_set.
  - intros j y Hj Hlt. rewrite list_lookup_insert_ne in Hj by lia.
    by eapply Hbefore.
Qed.

Lemma find_one_update_one_none filter fields coll :
  find_one filter coll = None ->
  find_one filter (update_one filter fields coll) = None.
Proof. intros Hf. by rewrite (update_one_not_found _ _ _ Hf). Qed.

(** Running the same update twice is running it once. *)
Lemma update_one_twice filter fields coll :
  (forall k, In k (map fst filter) -> ~ In k (map fst fields)) ->
  (forall d, apply_set fields (apply_set fields d) = apply_set fields d) ->
  update_one filter fields (update_one filter fields coll)
  = update_one filter fields coll.
Proof.
  intros Hkeys Hidem.
  destruct (find_one filter coll) as [[i d]|] eqn:Hf.
  - rewrite (update_one_found _ _ _ _ _ (find_one_update_one _ _ _ _ _ Hkeys Hf)).
    rewrite (update_one_found _ _ _ _ _ Hf).
    by rewrite list_insert_insert_eq, Hidem.
  - by rewrite !(update_one_not_found _ _ _ Hf).
Qed.

Lemma coll_of_update_one_other filter fields name name' (d : database) :
  name <> name' ->
  coll_of (alter (update_one filter fields) name d) name' = coll_of d name'.
Proof. intros Hne. unfold coll_of. by rewrite lookup_alter_ne. Qed.

Lemma matches_by_gateway_id order_id d :
  matches (by_gateway_id order_id) d
  = field_matches (lookup "razorpay_order_id" d) order_id.
Proof. unfold matches, by_gateway_id; simpl. apply andb_true_r. Qed.

End StoreFrame.

(** The fields that [verify_payment] sets are not the one it selects by,
    and setting them twice is setting them once. *)
Lemma verify_fields_keys env body k :
  In k (map fst (by_gateway_id (VStr (razorpay_order_id body)))) ->
  ~ In k (map fst (verify_fields env body)).
Proof. simpl. intros [<-|[]] [H|[H|[]]]; discriminate H. Qed.

Lemma verify_fields_twice env body d :
  apply_set (verify_fields env body) (apply_set (verify_fields env body) d)
  = apply_set (verify_fields env body) d.
Proof.
  unfold apply_set, verify_fields; simpl.
  rewrite (setitem_same "payment_status").
  - apply setitem_same, lookup_setitem_eq.
  - rewrite lookup_setitem_ne by done. apply lookup_setitem_eq.
Qed.

(** ** Further properties of [verify_payment] *)

(** X1. A verification that is submitted again (same environment, same
    body) leaves the orders as the first submission left them. *)
Theorem verify_payment_twice env w body :
  orders (snd (verify_payment env body (snd (verify_payment env body w))))
  = orders (snd (verify_payment env body w)).
Proof.
  rewrite !verify_payment_orders.
  apply update_one_twice.
  - apply verify_fields_keys.
  - apply verify_fields_twice.
Qed.

(** X2. [verify_payment] writes nothing but [payment_status] and
    [razorpay_payment_id]: it keeps the number of orders, every other field
    of every order, and every other collection. *)
Theorem verify_payment_frame env w body :
  let w' := snd (verify_payment env body w) in
  length (orders w') = length (orders w)
  /\ (forall name, name <> "orders" -> coll_of (db w') name = coll_of (db w) name)
  /\ forall j doc,
      orders w !! j = Some doc ->
      exists doc',
        orders w' !! j = Some doc'
        /\ forall k, k <> "payment_status" -> k <> "razorpay_payment_id" ->
                     lookup k doc' = lookup k doc.
Proof.
  intros w'. subst w'. split; [|split].
  - rewrite verify_payment_orders. apply update_one_length.
  - intros name Hne. rewrite verify_payment_run. simpl.
    by apply coll_of_update_one_other.
  - intros j doc Hj. rewrite verify_payment_orders.
    destruct (update_one_lookup (by_gateway_id (VStr (razorpay_order_id body)))
                (verify_fields env body) _ j doc Hj) as (doc' & H1 & H2).
    exists doc'. split; [done |]. intros k Hk1 Hk2.
    destruct H2 as [->|[_ ->]]; [done |].
    apply lookup_apply_set_other. simpl. intros [H|[H|[]]]; congruence.
Qed.

(** X3. A verification with ids that have a UTF-8 encoding and a gateway
    order id that selects no order changes no order and raises no not-found
    error: the outcome depends on the signature alone. *)
Theorem verify_payment_unknown_order env w (b : VerifyText) :
  existsb is_surrogate (order_id_text b) = false ->
  existsb is_surrogate (payment_id_text b) = false ->
  matching_order w (VStr (text_string (order_id_text b))) = None ->
  orders (snd (verify_payment_text env b w)) = orders w
  /\ fst (verify_payment_text env b w)
     = (if is_valid env (body_of_text b) then Return ok_response
        else Raise invalid_signature)
  /\ (configured (getenv env "RAZORPAY_KEY_SECRET") = false ->
      fst (verify_payment_text env b w) = Return ok_response).
Proof.
  intros Ho Hp Hm. rewrite (verify_payment_text_encodable env w b Ho Hp).
  split; [by apply verify_payment_no_match |].
  rewrite verify_payment_outcome. split; [done |].
  intros Hc. by rewrite (is_valid_unconfigured env (body_of_text b) Hc).
Qed.

Lemma verify_payment_unknown_order_witness :
  orders (snd (verify_payment_text env_mock text_unsigned w_empty)) = orders w_empty
  /\ fst (verify_payment_text env_mock text_unsigned w_empty) = Return ok_response.
Proof.
  destruct (verify_payment_unknown_order env_mock w_empty text_unsigned)
    as (H1 & _ & H3).
  - reflexivity.
  - reflexivity.
  - vm_compute. reflexivity.
  - split; [exact H1 | apply H3; reflexivity].
Defined.

(** ** The shape of a recomputed signature *)

Lemma land_255_range x : 0 <= Z.land x 255 < 256.
Proof.
  change 255 with (Z.ones 8). rewrite Z.land_ones by lia.
  apply Z.mod_pos_bound. lia.
Qed.

Lemma bytes_of_word_range w :
  Forall (fun b => 0 <= b < 256) (hashlib.bytes_of_word w).
Proof. unfold hashlib.bytes_of_word. repeat constructor; apply land_255_range. Qed.

Lemma sha256_length msg : length (hashlib.sha256 msg) = 32%nat.
Proof.
  unfold hashlib.sha256. cbv zeta.
  generalize (fold_left hashlib.compress
                (hashlib.blocks
                   (length (hashlib.words_of_bytes (length (hashlib.pad msg))
                              (hashlib.pad msg)))
                   (hashlib.words_of_bytes (length (hashlib.pad msg)) (hashlib.pad msg)))
                hashlib.initial_state).
  intros h. reflexivity.
Qed.

Lemma sha256_range msg : Forall (fun b => 0 <= b < 256) (hashlib.sha256 msg).
Proof.
  unfold hashlib.sha256. cbv zeta.
  generalize (fold_left hashlib.compress
                (hashlib.blocks
                   (length (hashlib.words_of_bytes (length (hashlib.pad msg))
                              (hashlib.pad msg)))
                   (hashlib.words_of_bytes (length (hashlib.pad msg)) (hashlib.pad msg)))
                hashlib.initial_state).
  intros h. cbn [flat_map].
  repeat (apply Forall_app; split; [apply bytes_of_word_range |]).
  constructor.
Qed.

Lemma hex_length bs : String.length (hashlib.hex bs) = (2 * length bs)%nat.
Proof. induction bs as [|b bs IH]; simpl; [done |]. rewrite IH. lia. Qed.

Lemma hex_digit_lower n : 0 <= n < 16 -> lower_hex (hashlib.hex_digit n) = true.
Proof.
  intros Hn.
  assert (forallb (fun k => lower_hex (hashlib.hex_digit (Z.of_nat k))) (seq 0 16)
          = true) as Hall by reflexivity.
  rewrite forallb_forall in Hall.
  rewrite <- (Z2Nat.id n) by lia. apply Hall. apply in_seq. lia.
Qed.

Lemma hex_lower bs :
  Forall (fun b => 0 <= b < 256) bs ->
  forallb lower_hex (list_ascii_of_string (hashlib.hex bs)) = true.
Proof.
  induction 1 as [|b bs Hb _ IH]; [done |].
  cbn [hashlib.hex list_ascii_of_string forallb].
  rewrite IH, !hex_digit_lower; [done | |].
  - change 15 with (Z.ones 4). rewrite Z.land_ones by lia.
    apply Z.mod_pos_bound. lia.
  - rewrite Z.shiftr_div_pow2 by lia. change (2 ^ 4) with 16.
    split; [apply Z.div_pos; lia | apply Z.div_lt_upper_bound; lia].
Qed.

(** What [hmac ... hexdigest()] yields has 64 characters, all of them
    digits or the letters a to f in lower case. *)
Lemma hexdigest_shaped key msg : digest_shaped (hmac.hexdigest key msg) = true.
Proof.
  unfold digest_shaped, hmac.hexdigest, hmac.digest. cbv zeta.
  rewrite hex_length, sha256_length, hex_lower by apply sha256_range.
  reflexivity.
Qed.

(** X4. With a secret configured, a signature that has not the shape of a
    SHA-256 hex digest (64 characters out of 0-9 and a-f; the comparison
    is case-sensitive) is refused: the call raises "Invalid signature" and
    the selected order is marked "failed". *)
Theorem verify_payment_refuses_malformed env w body :
  configured (getenv env "RAZORPAY_KEY_SECRET") = true ->
  digest_shaped (razorpay_signature body) = false ->
  fst (verify_payment env body w) = Raise invalid_signature
  /\ forall i doc,
      matching_order w (VStr (razorpay_order_id body)) = Some (i, doc) ->
      exists doc',
        orders (snd (verify_payment env body w)) !! i = Some doc'
        /\ lookup "payment_status" doc' = Some (VStr "failed").
Proof.
  intros Hc Hshape.
  assert (is_valid env body = false) as Hv.
  { unfold is_valid. rewrite Hc. apply String.eqb_neq. intros Heq.
    unfold generated_signature in Heq.
    rewrite <- Heq, hexdigest_shaped in Hshape. discriminate. }
  split; [by rewrite verify_payment_outcome, Hv |].
  intros i doc Hm.
  destruct (verify_payment_matched env w body i doc Hm) as (doc' & H1 & H2 & _).
  exists doc'. by rewrite Hv in H2.
Qed.

Lemma verify_payment_refuses_malformed_witness :
  fst (verify_payment (env_live reply_created) body_upper w_pending)
  = Raise invalid_signature
  /\ exists doc',
      orders (snd (verify_payment (env_live reply_created) body_upper w_pending)) !! 0%nat
      = Some doc'
      /\ lookup "payment_status" doc' = Some (VStr "failed").
Proof.
  destruct (verify_payment_refuses_malformed (env_live reply_created) w_pending
              body_upper eq_refl eq_refl) as [Hraise Hdoc].
  split; [exact Hraise |].
  apply (Hdoc 0%nat (order_document sample_order (VStr "order_1"))).
  vm_compute. reflexivity.
Defined.

(** ** Further properties of [payment_webhook] *)

Lemma get_raises v k default e :
  get v k default = Raise e -> exists msg, e = AttributeError msg.
Proof. destruct v; simpl; intros [= <-]; by eexists. Qed.

Lemma entity_of_raises payload e :
  entity_of payload = Raise e -> exists msg, e = AttributeError msg.
Proof.
  unfold entity_of.
  destruct (get (dict_get payload "payload" (VDict [])) "payment" (VDict []))
    as [payment|e'] eqn:Hp.
  - apply get_raises.
  - intros [= <-]. by eapply get_raises.
Qed.

(** The orders after an event: as before, or after one [update_one] that
    sets [payment_status] only. *)
Lemma payment_webhook_effect payload w :
  snd (payment_webhook payload w) = w
  \/ exists ent,
      entity_of payload = Return (VDict ent)
      /\ truthy (dict_get ent "order_id" VNone) = true
      /\ snd (payment_webhook payload w)
         = World (alter (update_one (by_gateway_id (dict_get ent "order_id" VNone))
                                    (webhook_fields ent)) "orders" (db w))
                 (calls w ++ [UpdateOne "orders"
                                (by_gateway_id (dict_get ent "order_id" VNone))
                                (webhook_fields ent)]).
Proof.
  rewrite payment_webhook_run.
  destruct (entity_of payload) as [[| | | | | |ent]|e]; simpl; try by left.
  destruct (truthy (dict_get ent "order_id" VNone)) eqn:Ht; [|by left].
  right. by exists ent.
Qed.

(** X5. An event that lacks the nested members (no ["payload"], no
    ["payment"] in it, no ["entity"] in that, or an entity without a truthy
    [order_id]) is acknowledged and changes nothing. *)
Theorem payment_webhook_missing_members payload w :
  (lookup "payload" payload = None
   \/ exists p,
       lookup "payload" payload = Some (VDict p)
       /\ (lookup "payment" p = None
           \/ exists pay,
               lookup "payment" p = Some (VDict pay)
               /\ (lookup "entity" pay = None
                   \/ exists ent,
                       lookup "entity" pay = Some (VDict ent)
                       /\ truthy (dict_get ent "order_id" VNone) = false))) ->
  payment_webhook payload w = (Return received_response, w).
Proof.
  intros H. rewrite payment_webhook_run. unfold entity_of, dict_get.
  destruct H as [->|(p & -> & H)]; [done |]. simpl. unfold dict_get.
  destruct H as [->|(pay & -> & H)]; [done |]. simpl. unfold dict_get.
  destruct H as [->|(ent & -> & H)]; [done |]. simpl.
  fold (dict_get ent "order_id" VNone). by rewrite H.
Qed.

Lemma payment_webhook_missing_members_witness :
  payment_webhook [("event", VStr "order.paid"); ("payload", VDict [])] w_pending
  = (Return received_response, w_pending).
Proof.
  apply payment_webhook_missing_members.
  right. exists []. split; [reflexivity |]. left. reflexivity.
Defined.

(** X6. For a payload whose payment entity has an [order_id] and a
    [status] that are each absent, null or a string: when [payment_webhook]
    fails, it fails with an [AttributeError] (never with an HTTP error of
    its own) and has written nothing. *)
Theorem payment_webhook_failure payload w e w' :
  webhook_strings payload = true ->
  payment_webhook payload w = (Raise e, w') ->
  w' = w /\ exists msg, e = AttributeError msg.
Proof.
  intros _. rewrite payment_webhook_run.
  destruct (entity_of payload) as [v|e0] eqn:He.
  - destruct v; simpl;
      try (intros [= <- <-]; split; [done | by eexists]).
    destruct (truthy _); discriminate.
  - intros [= <- <-]. split; [done |]. by eapply entity_of_raises.
Qed.

Lemma payment_webhook_failure_witness :
  exists msg,
    fst (payment_webhook [("payload", VDict [("payment", VStr "pay_1")])] w_pending)
    = Raise (AttributeError msg).
Proof.
  destruct (payment_webhook_failure
              [("payload", VDict [("payment", VStr "pay_1")])] w_pending
              (AttributeError "'str' object has no attribute 'get'") w_pending
              eq_refl eq_refl) as [_ [msg Hmsg]].
  exists msg. rewrite <- Hmsg. reflexivity.
Defined.

(** X7. [payment_webhook] writes nothing but [payment_status]: it keeps the
    number of orders and every other field of every order, among them the
    payment id that a verification recorded, and every other collection;
    its only call to the store, if any, is one [update_one] on [orders]. *)
Theorem payment_webhook_frame payload w :
  let w' := snd (payment_webhook payload w) in
  length (orders w') = length (orders w)
  /\ (forall name, name <> "orders" -> coll_of (db w') name = coll_of (db w) name)
  /\ (calls w' = calls w
      \/ exists filter status,
          calls w' = calls w ++ [UpdateOne "orders" filter [("payment_status", status)]])
  /\ forall j doc,
      orders w !! j = Some doc ->
      exists doc',
        orders w' !! j = Some doc'
        /\ forall k, k <> "payment_status" -> lookup k doc' = lookup k doc.
Proof.
  intros w'. subst w'.
  destruct (payment_webhook_effect payload w) as [->|(ent & _ & _ & ->)].
  { repeat split; try done; [by left | intros j doc Hj; by exists doc]. }
  unfold orders; simpl.
  split; [rewrite coll_of_update_one; apply update_one_length |].
  split; [intros name Hne; by apply coll_of_update_one_other |].
  split; [right; by eexists _, _ |].
  intros j doc Hj. rewrite coll_of_update_one.
  destruct (update_one_lookup (by_gateway_id (dict_get ent "order_id" VNone))
              (webhook_fields ent) _ j doc Hj) as (doc' & H1 & H2).
  exists doc'. split; [done |]. intros k Hk.
  destruct H2 as [->|[_ ->]]; [done |].
  apply lookup_apply_set_other. simpl. intros [H|[]]; congruence.
Qed.

(** ** Verification and events on the same order *)

Lemma webhook_fields_keys ent order_id k :
  In k (map fst (by_gateway_id order_id)) -> ~ In k (map fst (webhook_fields ent)).
Proof. simpl. intros [<-|[]] [H|[]]; discriminate H. Qed.

Lemma matching_order_after_verify env w body order_id i doc :
  matching_order w order_id = Some (i, doc) ->
  exists doc1,
    matching_order (snd (verify_payment env body w)) order_id = Some (i, doc1)
    /\ orders (snd (verify_payment env body w)) !! i = Some doc1.
Proof.
  intros Hm. unfold matching_order in *. rewrite verify_payment_orders.
  pose proof (find_one_lookup _ _ _ _ Hm) as [Hi Hdoc].
  destruct (update_one_lookup (by_gateway_id (VStr (razorpay_order_id body)))
              (verify_fields env body) _ i doc Hi) as (doc1 & H1 & H2).
  exists doc1. split; [|done].
  unfold find_one in *. apply list_find_Some in Hm as (_ & _ & Hbefore).
  apply list_find_Some. split; [done |]. split.
  - destruct H2 as [->|[_ ->]]; [done |].
    rewrite matches_apply_set; [done |].
    intros k Hk. by apply (verify_fields_keys env body).
  - intros j y Hj Hlt Hy.
    destruct (lookup_lt_is_Some_2 (orders w) j) as [y0 Hy0].
    { apply lookup_lt_Some in Hj. by rewrite update_one_length in Hj. }
    destruct (update_one_lookup (by_gateway_id (VStr (razorpay_order_id body)))
                (verify_fields env body) _ j y0 Hy0) as (y' & Hy1 & Hy2).
    rewrite Hj in Hy1. injection Hy1 as <-.
    apply (Hbefore j y0 Hy0 Hlt).
    destruct Hy2 as [->|[_ ->]]; [done |].
    rewrite matches_apply_set in Hy; [done |].
    intros k Hk. by apply (verify_fields_keys env body).
Qed.

(** X8. The last write wins.  An event for an order that a verification
    has just handled, with a status that is absent, null or a string,
    overwrites the status that the verification wrote: with the string the
    event reports when that is not empty, with "processing" otherwise; the
    recorded payment id is kept. *)
Theorem payment_webhook_after_verify env w body payload ent i doc :
  matching_order w (VStr (razorpay_order_id body)) = Some (i, doc) ->
  entity_of payload = Return (VDict ent) ->
  lookup "order_id" ent = Some (VStr (razorpay_order_id body)) ->
  razorpay_order_id body <> "" ->
  str_or_none (dict_get ent "status" VNone) = true ->
  let w1 := snd (verify_payment env body w) in
  let w2 := snd (payment_webhook payload w1) in
  exists doc2,
    orders w2 !! i = Some doc2
    /\ lookup "payment_status" doc2
       = Some (or_ (dict_get ent "status" VNone) (VStr "processing"))
    /\ lookup "razorpay_payment_id" doc2 = Some (VStr (razorpay_payment_id body)).
Proof.
  intros Hm He Hid Hne _ w1 w2.
  destruct (verify_payment_matched env w body i doc Hm) as (doc1 & H1 & _ & Hpid & _).
  destruct (matching_order_after_verify env w body _ i doc Hm) as (doc1' & Hm1 & H1').
  fold w1 in H1, Hm1, H1'. assert (doc1' = doc1) as -> by congruence.
  assert (dict_get ent "order_id" VNone = VStr (razorpay_order_id body)) as Hoid
    by (unfold dict_get; by rewrite Hid).
  assert (truthy (dict_get ent "order_id" VNone) = true) as Ht.
  { rewrite Hoid. simpl. by apply String.eqb_neq in Hne as ->. }
  exists (apply_set (webhook_fields ent) doc1).
  subst w2. rewrite (payment_webhook_orders payload w1 ent He Ht), Hoid.
  split; [by apply update_one_lookup_found |].
  unfold apply_set, webhook_fields; simpl.
  split; [apply lookup_setitem_eq | by rewrite lookup_setitem_ne].
Qed.

Lemma payment_webhook_after_verify_witness :
  let payload := webhook_payload [("order_id", VStr "order_1"); ("status", VStr "failed")] in
  let w1 := snd (verify_payment (env_live reply_created) body_signed w_pending) in
  status_of w1 "order_1" = Some (VStr "paid")
  /\ exists doc2,
      orders (snd (payment_webhook payload w1)) !! 0%nat = Some doc2
      /\ lookup "payment_status" doc2 = Some (VStr "failed")
      /\ lookup "razorpay_payment_id" doc2 = Some (VStr "pay_1").
Proof.
  intros payload w1. split; [vm_compute; reflexivity |].
  assert ("order_1" <> "") as Hne by discriminate.
  apply (payment_webhook_after_verify (env_live reply_created) w_pending body_signed
           payload [("order_id", VStr "order_1"); ("status", VStr "failed")]
           0%nat (order_document sample_order (VStr "order_1"))).
  - vm_compute. reflexivity.
  - reflexivity.
  - reflexivity.
  - exact Hne.
  - reflexivity.
Defined.

(** ** Further properties of [create_payment_order] *)

(** X9. [create_payment_order] stores the order as its last step: whenever
    it raises (no amount, no answer of the gateway, a refusal, a body that
    is not an object), the world is as it was. *)
Theorem create_payment_order_failure_unchanged env order w e w' :
  create_payment_order env order w = (Raise e, w') -> w' = w.
Proof.
  intros Hrun.
  destruct (amount_paise (total_price order)) as [a|e0] eqn:Ha;
    [| rewrite (create_payment_order_no_amount env order w e0 Ha) in Hrun;
       by injection Hrun].
  destruct (live_mode env) eqn:Hm;
    [| by rewrite (create_payment_order_mock env order w a Ha Hm) in Hrun].
  destruct (requests_post env (gateway_request env order a)) as [resp|e0] eqn:Hr;
    [| rewrite (create_payment_order_no_reply env order w a e0 Ha Hm Hr) in Hrun;
       by injection Hrun].
  destruct (Z.le_gt_cases 300 (status_code resp)) as [Hs|Hs];
    [rewrite (create_payment_order_rejected env order w a resp Ha Hm Hr Hs) in Hrun;
     by injection Hrun |].
  destruct (resp_json resp) as [[| | | | | |data]|e0] eqn:Hj;
    try (destruct (create_payment_order_bad_body env order w a resp Ha Hm Hr Hs)
           as [e' He']; [by rewrite Hj | rewrite He' in Hrun; by injection Hrun]).
  by rewrite (create_payment_order_created env order w a resp data Ha Hm Hr Hs Hj)
    in Hrun.
Qed.

Lemma create_payment_order_failure_unchanged_witness :
  snd (create_payment_order
         (env_live (Return (Response 200 "[]" (Return (VList [])))))
         sample_order w_pending)
  = w_pending.
Proof.
  apply (create_payment_order_failure_unchanged
           (env_live (Return (Response 200 "[]" (Return (VList [])))))
           sample_order w_pending
           (AttributeError "'list' object has no attribute 'get'")).
  vm_compute. reflexivity.
Defined.

(** The id that a returning call hands to the client is the one it stored. *)
Lemma create_payment_order_stored_id env order w v w' o id :
  create_payment_order env order w = (Return v, w') ->
  get v "order" VNone = Return o ->
  get o "id" VNone = Return id ->
  w' = with_order w (order_document order id).
Proof.
  intros Hrun Ho Hid.
  destruct (create_payment_order_returns env order w v w' Hrun)
    as (a & gid & _ & -> & Hmode).
  destruct Hmode as [(_ & -> & ->) | (_ & resp & data & _ & _ & _ & -> & ->)];
    simpl in Ho; injection Ho as <-; simpl in Hid; by injection Hid as <-.
Qed.

Lemma matching_order_with_order w doc order_id :
  matching_order w order_id = None ->
  matches (by_gateway_id order_id) doc = true ->
  matching_order (with_order w doc) order_id = Some (length (orders w), doc).
Proof.
  intros Hnone Hdoc. unfold matching_order in *.
  rewrite orders_with_order. unfold find_one in *.
  rewrite list_find_app_r by done. simpl.
  by rewrite decide_True.
Qed.

(** X10. Creation and verification fit together: when the id that
    [create_payment_order] returns is a string that no earlier order
    carries, a verification for that id selects the order just created and
    marks it "paid" or "failed" by the signature check. *)
Theorem create_then_verify env order w v w1 o body :
  create_payment_order env order w = (Return v, w1) ->
  get v "order" VNone = Return o ->
  get o "id" VNone = Return (VStr (razorpay_order_id body)) ->
  matching_order w (VStr (razorpay_order_id body)) = None ->
  exists doc',
    orders (snd (verify_payment env body w1)) !! length (orders w) = Some doc'
    /\ lookup "payment_status" doc'
       = Some (VStr (if is_valid env body then "paid" else "failed"))
    /\ lookup "razorpay_payment_id" doc' = Some (VStr (razorpay_payment_id body))
    /\ lookup "user_id" doc' = Some (VStr (user_id order)).
Proof.
  intros Hrun Ho Hid Hfresh.
  rewrite (create_payment_order_stored_id env order w v w1 o _ Hrun Ho Hid).
  set (doc := order_document order (VStr (razorpay_order_id body))).
  assert (matching_order (with_order w doc) (VStr (razorpay_order_id body))
          = Some (length (orders w), doc)) as Hm.
  { apply matching_order_with_order; [done |].
    rewrite matches_by_gateway_id. simpl. apply String.eqb_refl. }
  destruct (verify_payment_matched env _ body _ doc Hm) as (doc' & H1 & H2 & H3 & _).
  exists doc'. repeat split; try done.
  pose proof (verify_payment_orders env (with_order w doc) body) as Ho'.
  rewrite Ho' in H1.
  rewrite (update_one_lookup_found _ _ _ _ _ Hm) in H1. injection H1 as <-.
  reflexivity.
Qed.

Lemma create_then_verify_witness :
  let w1 := snd (create_payment_order env_mock sample_order w_pending) in
  let body :=
    {| razorpay_order_id := "order_64b7f1e2a1b2c3d4e5f60718";
       razorpay_payment_id := "pay_2"; razorpay_signature := "" |} in
  exists doc',
    orders (snd (verify_payment env_mock body w1)) !! 1%nat = Some doc'
    /\ lookup "payment_status" doc' = Some (VStr "paid").
Proof.
  intros w1 body.
  destruct (create_then_verify env_mock sample_order w_pending
              (mock_response env_mock 14999) w1
              (VDict [("id", VStr "order_64b7f1e2a1b2c3d4e5f60718");
                      ("amount", VInt 14999); ("currency", VStr "INR")])
              body) as (doc' & H1 & H2 & _).
  - vm_compute. reflexivity.
  - reflexivity.
  - reflexivity.
  - vm_compute. reflexivity.
  - exists doc'. split; [exact H1 | exact H2].
Defined.

Lemma matches_without_gateway_id order order_id :
  truthy order_id = true ->
  matches (by_gateway_id order_id) (order_document order VNone) = false.
Proof. rewrite matches_by_gateway_id. by destruct order_id. Qed.

(** X11. A gateway answer without an [id] is taken: the order is stored with
    [razorpay_order_id] null, and from then on no verification selects it,
    and no event whose [order_id] and [status] are each absent, null or a
    string; these leave it as it was stored. *)
Theorem order_without_gateway_id env order w v w1 data :
  create_payment_order env order w = (Return v, w1) ->
  get v "order" VNone = Return (VDict data) ->
  lookup "id" data = None ->
  let n := length (orders w) in
  let doc := order_document order VNone in
  orders w1 !! n = Some doc
  /\ (forall env' body, orders (snd (verify_payment env' body w1)) !! n = Some doc)
  /\ (forall payload,
        webhook_strings payload = true ->
        orders (snd (payment_webhook payload w1)) !! n = Some doc).
Proof.
  intros Hrun Ho Hid n doc.
  assert (get (VDict data) "id" VNone = Return VNone) as Hget
    by (simpl; unfold dict_get; by rewrite Hid).
  rewrite (create_payment_order_stored_id env order w v w1 _ _ Hrun Ho Hget).
  fold doc.
  assert (orders (with_order w doc) !! n = Some doc) as Hn.
  { rewrite orders_with_order. subst n. apply list_lookup_middle. done. }
  split; [done |]. split.
  - intros env' body. rewrite verify_payment_orders.
    destruct (update_one_lookup (by_gateway_id (VStr (razorpay_order_id body)))
                (verify_fields env' body) _ n doc Hn) as (doc' & H1 & [->|[Hf _]]);
      [done |].
    apply find_one_lookup in Hf as [_ Hmatch].
    rewrite matches_by_gateway_id in Hmatch. discriminate Hmatch.
  - intros payload _.
    destruct (payment_webhook_effect payload (with_order w doc))
      as [->|(ent & He & Ht & Hw)]; [done |].
    rewrite (payment_webhook_orders payload _ ent He Ht).
    destruct (update_one_lookup (by_gateway_id (dict_get ent "order_id" VNone))
                (webhook_fields ent) _ n doc Hn) as (doc' & H1 & [->|[Hf _]]);
      [done |].
    apply find_one_lookup in Hf as [_ Hmatch].
    subst doc. by rewrite matches_without_gateway_id in Hmatch.
Qed.

Lemma order_without_gateway_id_witness :
  let env := env_live (Return (Response 200 "{}" (Return (VDict [])))) in
  let w1 := snd (create_payment_order env sample_order w_empty) in
  orders w1 !! 0%nat = Some (order_document sample_order VNone)
  /\ orders (snd (verify_payment env_mock body_forged w1)) !! 0%nat
     = Some (order_document sample_order VNone).
Proof.
  intros env w1.
  destruct (order_without_gateway_id env sample_order w_empty
              (live_response env (VDict [])) w1 []) as (H1 & H2 & _).
  - vm_compute. reflexivity.
  - reflexivity.
  - reflexivity.
  - split; [exact H1 | exact (H2 env_mock body_forged)].
Defined.

(** ** Further properties of the amount *)

Lemma binary_round_aux_opp prec emax s m e l :
  binary_round_aux prec emax (negb s) m e l
  = SFopp (binary_round_aux prec emax s m e l).
Proof.
  unfold binary_round_aux.
  destruct (shr_fexp prec emax m e l) as [mrs' e'].
  destruct (shr_fexp prec emax _ e' loc_Exact) as [mrs'' e''].
  destruct (shr_m mrs''); [done | | done].
  by destruct (Z.leb e'' _).
Qed.

Lemma mul_100_opp x :
  float.mul (SFopp x) (float.of_int 100) = SFopp (float.mul x (float.of_int 100)).
Proof.
  rewrite of_int_100. destruct x as [s|s| |s m e]; simpl; try done.
  - by rewrite !xorb_false_r.
  - by rewrite !xorb_false_r.
  - rewrite !xorb_false_r. apply binary_round_aux_opp.
Qed.

Lemma round_opp x : float.round (SFopp x) = result_opp (float.round x).
Proof.
  destruct x as [s|s| |s m e]; simpl; try done.
  destruct s; simpl; [|done]. by rewrite Z.opp_involutive.
Qed.

(** The amount is computed exactly for the prices whose product with 100 is
    finite. *)
Lemma amount_paise_returns_iff x :
  (exists a, amount_paise x = Return a)
  <-> is_finite (float.mul x (float.of_int 100)) = true.
Proof.
  unfold amount_paise. split.
  - intros [a Ha]. by destruct (float.mul x (float.of_int 100)).
  - intros Hfin. destruct (round_finite _ Hfin) as (n & Hn & _). by exists n.
Qed.

(** X12. The conversion to minor units is odd: the amount of a negated
    price is the negated amount (a negative price is not refused, it gives a
    negative amount), and the errors are the same. *)
Theorem amount_paise_opp x : amount_paise (SFopp x) = result_opp (amount_paise x).
Proof. unfold amount_paise. by rewrite mul_100_opp, round_opp. Qed.

(** ** The two credentials *)

(** X13. The two handlers read the credentials differently.  With a secret
    set but no key id, [create_payment_order] runs in mock mode and answers
    with the key ["rzp_test_mock"], while [verify_payment] checks
    signatures: a confirmation that does not carry the recomputed signature
    is refused. *)
Theorem secret_without_key_id env order w a body w' :
  configured (getenv env "RAZORPAY_KEY_ID") = false ->
  configured (getenv env "RAZORPAY_KEY_SECRET") = true ->
  amount_paise (total_price order) = Return a ->
  razorpay_signature body
  <> generated_signature (getenv env "RAZORPAY_KEY_SECRET") body ->
  fst (create_payment_order env order w) = Return (mock_response env a)
  /\ fst (verify_payment env body w') = Raise invalid_signature.
Proof.
  intros Hid Hsec Ha Hsig. split.
  - rewrite (create_payment_order_mock env order w a Ha); [done |].
    unfold live_mode. by rewrite Hid.
  - rewrite verify_payment_outcome. unfold is_valid. rewrite Hsec.
    assert (String.eqb (generated_signature (getenv env "RAZORPAY_KEY_SECRET") body)
                       (razorpay_signature body) = false) as ->
      by (apply String.eqb_neq; congruence).
    done.
Qed.

Lemma secret_without_key_id_witness :
  fst (create_payment_order env_secret_only sample_order w_empty)
  = Return (mock_response env_secret_only 14999)
  /\ fst (verify_payment env_secret_only body_forged w_pending)
     = Raise invalid_signature.
Proof.
  apply (secret_without_key_id env_secret_only sample_order w_empty 14999
           body_forged w_pending).
  - reflexivity.
  - reflexivity.
  - vm_compute. reflexivity.
  - intros Heq. vm_compute in Heq. discriminate Heq.
Defined.

(** ** The admin update of an order *)

Section UpdateOrder.

Variable bson_ObjectId : string -> result value.

Lemma order_update_truthy payment_status shipping_status :
  truthy (VDict (order_update payment_status shipping_status))
  = configured payment_status || configured shipping_status.
Proof.
  unfold order_update, set_if_given, configured.
  destruct payment_status as [s|], shipping_status as [t|]; simpl;
    repeat (destruct (String.eqb _ ""); simpl); reflexivity.
Qed.

Lemma update_order_run order_id payment_status shipping_status w oid :
  configured payment_status || configured shipping_status = true ->
  bson_ObjectId order_id = Return oid ->
  update_order bson_ObjectId order_id payment_status shipping_status w
  = (match find_one [("_id", oid)] (orders w) with
     | Some _ => Return ok_response
     | None => Raise (not_found "Order not found")
     end,
     World (alter (update_one [("_id", oid)]
                     (order_update payment_status shipping_status)) "orders" (db w))
           (calls w ++ [UpdateOne "orders" [("_id", oid)]
                          (order_update payment_status shipping_status)])).
Proof.
  intros Hf Hid. unfold update_order.
  rewrite order_update_truthy, Hf. simpl.
  unfold bind, lift, to_obj_id. rewrite Hid.
  unfold db_update_one_matched, matched_count, db_update_one. simpl.
  fold (orders w). by destruct (find_one [("_id", oid)] (orders w)).
Qed.

(** What the [$set] of [update_order] leaves in a document. *)
Lemma order_update_lookup payment_status shipping_status doc :
  lookup "payment_status" (apply_set (order_update payment_status shipping_status) doc)
  = (if configured payment_status then Some (VStr (or_str payment_status ""))
     else lookup "payment_status" doc)
  /\ lookup "shipping_status" (apply_set (order_update payment_status shipping_status) doc)
     = (if configured shipping_status then Some (VStr (or_str shipping_status ""))
        else lookup "shipping_status" doc)
  /\ forall k, k <> "payment_status" -> k <> "shipping_status" ->
       lookup k (apply_set (order_update payment_status shipping_status) doc)
       = lookup k doc.
Proof.
  unfold order_update, set_if_given, configured, or_str.
  destruct payment_status as [s|], shipping_status as [t|]; simpl;
    repeat (destruct (String.eqb _ ""); simpl);
    unfold apply_set; simpl;
    repeat split; intros;
    rewrite ?lookup_setitem_eq, ?lookup_setitem_ne, ?lookup_setitem_eq by done;
    done.
Qed.

Lemma orders_after_update_one filter fields w c :
  orders (World (alter (update_one filter fields) "orders" (db w)) c)
  = update_one filter fields (orders w).
Proof. apply coll_of_update_one. Qed.

(** X14. [update_order] with no status to set (both absent or empty) is
    refused with 400 "No fields to update" before the id is looked at, so
    also for an id that is not valid; nothing reaches the store. *)
Theorem update_order_no_fields order_id payment_status shipping_status w :
  configured payment_status = false ->
  configured shipping_status = false ->
  update_order bson_ObjectId order_id payment_status shipping_status w
  = (Raise (HTTPException 400 "No fields to update"), w).
Proof.
  intros Hp Hs. unfold update_order.
  by rewrite order_update_truthy, Hp, Hs.
Qed.

(** X15. [update_order] with a status to set and an id that the bson
    constructor refuses fails with 400 "Invalid id"; nothing reaches the
    store. *)
Theorem update_order_invalid_id order_id payment_status shipping_status w e :
  configured payment_status || configured shipping_status = true ->
  bson_ObjectId order_id = Raise e ->
  update_order bson_ObjectId order_id payment_status shipping_status w
  = (Raise (HTTPException 400 "Invalid id"), w).
Proof.
  intros Hf Hid. unfold update_order.
  rewrite order_update_truthy, Hf. simpl.
  unfold bind, lift, to_obj_id. by rewrite Hid.
Qed.

(** X16. [update_order] for a valid id that no order carries fails with 404
    "Order not found" and leaves the orders as they were. *)
Theorem update_order_not_found order_id payment_status shipping_status w oid :
  configured payment_status || configured shipping_status = true ->
  bson_ObjectId order_id = Return oid ->
  find_one [("_id", oid)] (orders w) = None ->
  let run := update_order bson_ObjectId order_id payment_status shipping_status w in
  fst run = Raise (not_found "Order not found")
  /\ orders (snd run) = orders w.
Proof.
  intros Hf Hid Hnone run. subst run.
  rewrite (update_order_run _ _ _ _ oid Hf Hid), Hnone. split; [done |].
  cbn [snd]. rewrite orders_after_update_one.
  by apply update_one_not_found.
Qed.

(** X17. [update_order] for the id of an order returns [{ok: true}] and sets
    on that order each status that was given non-empty, to the string
    given, whatever it is and whatever the status was before (no check
    against the enumerations or the state machine); a status that was not
    given, every other field and every other order stay as they were. *)
Theorem update_order_found order_id payment_status shipping_status w oid i doc :
  configured payment_status || configured shipping_status = true ->
  bson_ObjectId order_id = Return oid ->
  find_one [("_id", oid)] (orders w) = Some (i, doc) ->
  let run := update_order bson_ObjectId order_id payment_status shipping_status w in
  fst run = Return ok_response
  /\ (exists doc',
        orders (snd run) !! i = Some doc'
        /\ lookup "payment_status" doc'
           = (if configured payment_status
              then Some (VStr (or_str payment_status ""))
              else lookup "payment_status" doc)
        /\ lookup "shipping_status" doc'
           = (if configured shipping_status
              then Some (VStr (or_str shipping_status ""))
              else lookup "shipping_status" doc)
        /\ forall k, k <> "payment_status" -> k <> "shipping_status" ->
                     lookup k doc' = lookup k doc)
  /\ forall j, j <> i -> orders (snd run) !! j = orders w !! j.
Proof.
  intros Hf Hid Hfound run. subst run.
  rewrite (update_order_run _ _ _ _ oid Hf Hid), Hfound.
  split; [done |].
  cbn [snd]. rewrite orders_after_update_one.
  split.
  - exists (apply_set (order_update payment_status shipping_status) doc).
    split; [by apply update_one_lookup_found |].
    apply order_update_lookup.
  - intros j Hj. by eapply update_one_lookup_other.
Qed.

End UpdateOrder.

Lemma update_order_no_fields_witness :
  update_order sample_ObjectId "not-an-id" None (Some "") w_admin
  = (Raise (HTTPException 400 "No fields to update"), w_admin).
Proof.
  apply (update_order_no_fields sample_ObjectId "not-an-id" None (Some "") w_admin);
    reflexivity.
Defined.

Lemma update_order_invalid_id_witness :
  update_order sample_ObjectId "not-an-id" (Some "paid") None w_admin
  = (Raise (HTTPException 400 "Invalid id"), w_admin).
Proof.
  apply (update_order_invalid_id sample_ObjectId "not-an-id" (Some "paid") None
           w_admin (ValueError "InvalidId")); reflexivity.
Defined.

Lemma update_order_not_found_witness :
  let run :=
    update_order sample_ObjectId "000000000000000000000000" (Some "paid") None w_admin in
  fst run = Raise (not_found "Order not found") /\ orders (snd run) = orders w_admin.
Proof.
  apply (update_order_not_found sample_ObjectId "000000000000000000000000"
           (Some "paid") None w_admin (VStr "000000000000000000000000")).
  - reflexivity.
  - reflexivity.
  - vm_compute. reflexivity.
Defined.

(** A pending order is set to "refunded" at once. *)
Lemma update_order_found_witness :
  let run :=
    update_order sample_ObjectId "64b7f1e2a1b2c3d4e5f60718" (Some "refunded") None
      w_admin in
  fst run = Return ok_response
  /\ exists doc',
      orders (snd run) !! 0%nat = Some doc'
      /\ lookup "payment_status" doc' = Some (VStr "refunded")
      /\ lookup "shipping_status" doc' = Some (VStr "pending").
Proof.
  destruct (update_order_found sample_ObjectId "64b7f1e2a1b2c3d4e5f60718"
              (Some "refunded") None w_admin (VStr "64b7f1e2a1b2c3d4e5f60718") 0%nat
              (("_id", VStr "64b7f1e2a1b2c3d4e5f60718")
               :: order_document sample_order (VStr "order_1")))
    as (Hret & (doc' & H1 & H2 & H3 & _) & _).
  - reflexivity.
  - reflexivity.
  - vm_compute. reflexivity.
  - split; [exact Hret |]. exists doc'.
    split; [exact H1 |]. split; [exact H2 | exact H3].
Defined.

(** ** The cart update *)

Lemma cart_after_update_one filter fields w c :
  cart (World (alter (update_one filter fields) "cart" (db w)) c)
  = update_one filter fields (cart w).
Proof. apply coll_of_update_one. Qed.

Lemma update_cart_run item w :
  int64 (CartItem.quantity item) = true ->
  update_cart item w
  = (match find_one (cart_filter item) (cart w) with
     | Some _ => Return ok_response
     | None => Raise (not_found "Cart item not found")
     end,
     World (alter (update_one (cart_filter item)
                     [("quantity", VInt (CartItem.quantity item))]) "cart" (db w))
           (calls w ++ [UpdateOne "cart" (cart_filter item)
                          [("quantity", VInt (CartItem.quantity item))]])).
Proof.
  intros Hq.
  unfold update_cart, bind, db_update_one_encoded, db_update_one_matched,
    matched_count, db_update_one.
  simpl. rewrite Hq. simpl.
  fold (cart w). by destruct (find_one (cart_filter item) (cart w)).
Qed.

(** A quantity beyond 8 bytes does not reach the store. *)
Lemma update_cart_overflow item w :
  int64 (CartItem.quantity item) = false ->
  update_cart item w
  = (Raise (OverflowError "MongoDB can only handle up to 8-byte ints"), w).
Proof.
  intros Hq. unfold update_cart, bind, db_update_one_encoded. simpl.
  by rewrite Hq.
Qed.

(** X18. [update_cart] does not create: for a quantity that fits in 8 bytes
    and a user and product that no cart item carries (an empty cart among
    them) it fails with 404 "Cart item not found" and leaves the cart as it
    was. *)
Theorem update_cart_not_found item w :
  int64 (CartItem.quantity item) = true ->
  find_one (cart_filter item) (cart w) = None ->
  fst (update_cart item w) = Raise (not_found "Cart item not found")
  /\ cart (snd (update_cart item w)) = cart w.
Proof.
  intros Hq Hnone. rewrite (update_cart_run item w Hq), Hnone. split; [done |].
  cbn [snd]. rewrite cart_after_update_one. by apply update_one_not_found.
Qed.

Lemma update_cart_not_found_witness :
  fst (update_cart (sample_item 3) w_empty) = Raise (not_found "Cart item not found")
  /\ cart (snd (update_cart (sample_item 3) w_empty)) = cart w_empty.
Proof.
  apply (update_cart_not_found (sample_item 3) w_empty); reflexivity.
Defined.

(** X19. [update_cart] for a quantity that fits in 8 bytes and a user and
    product in the cart returns [{ok: true}] and replaces the quantity of
    the first such item by the one given (it does not add to it); the
    item's other fields, the other items and the size of the cart stay as
    they were. *)
Theorem update_cart_found item w i doc :
  int64 (CartItem.quantity item) = true ->
  find_one (cart_filter item) (cart w) = Some (i, doc) ->
  let w' := snd (update_cart item w) in
  fst (update_cart item w) = Return ok_response
  /\ length (cart w') = length (cart w)
  /\ (exists doc',
        cart w' !! i = Some doc'
        /\ lookup "quantity" doc' = Some (VInt (CartItem.quantity item))
        /\ forall k, k <> "quantity" -> lookup k doc' = lookup k doc)
  /\ forall j, j <> i -> cart w' !! j = cart w !! j.
Proof.
  intros Hq Hfound w'. subst w'. rewrite (update_cart_run item w Hq), Hfound.
  split; [done |]. cbn [snd]. rewrite cart_after_update_one.
  split; [apply update_one_length |]. split.
  - exists (apply_set [("quantity", VInt (CartItem.quantity item))] doc).
    split; [by apply update_one_lookup_found |].
    unfold apply_set; simpl.
    split; [apply lookup_setitem_eq |].
    intros k Hk. by apply lookup_setitem_ne.
  - intros j Hj. by eapply update_one_lookup_other.
Qed.

Lemma update_cart_found_witness :
  fst (update_cart (sample_item 5) w_cart) = Return ok_response
  /\ exists doc',
      cart (snd (update_cart (sample_item 5) w_cart)) !! 0%nat = Some doc'
      /\ lookup "quantity" doc' = Some (VInt 5).
Proof.
  destruct (update_cart_found (sample_item 5) w_cart 0%nat
              [("user_id", VStr "u1"); ("product_id", VStr "p1"); ("quantity", VInt 2)])
    as (Hret & _ & (doc' & H1 & H2 & _) & _).
  - reflexivity.
  - vm_compute. reflexivity.
  - split; [exact Hret |]. exists doc'. split; [exact H1 | exact H2].
Defined.

(** The quantity 2^63 is refused before the store is reached; the cart
    item keeps its quantity. *)
Example update_cart_overflow_example :
  update_cart (sample_item (2 ^ 63)) w_cart
  = (Raise (OverflowError "MongoDB can only handle up to 8-byte ints"), w_cart).
Proof. apply update_cart_overflow. reflexivity. Qed.

(** ** Events: the event name and redelivery *)

(** X20. [payment_webhook] does not look at the event name: whatever the
    ["event"] member says, the outcome and the write are those of the
    payment entity alone. *)
Theorem payment_webhook_ignores_event payload event w :
  payment_webhook (setitem "event" event payload) w = payment_webhook payload w.
Proof.
  rewrite !payment_webhook_run. unfold entity_of, dict_get.
  by rewrite lookup_setitem_ne.
Qed.

Lemma webhook_fields_twice ent d :
  apply_set (webhook_fields ent) (apply_set (webhook_fields ent) d)
  = apply_set (webhook_fields ent) d.
Proof.
  unfold apply_set, webhook_fields; simpl.
  apply setitem_same, lookup_setitem_eq.
Qed.

(** X21. An event that is delivered again leaves the orders as the first
    delivery left them. *)
Theorem payment_webhook_twice payload w :
  orders (snd (payment_webhook payload (snd (payment_webhook payload w))))
  = orders (snd (payment_webhook payload w)).
Proof.
  destruct (payment_webhook_effect payload w) as [Hsame|(ent & He & Ht & _)].
  - by rewrite !Hsame.
  - rewrite !(payment_webhook_orders payload _ ent He Ht).
    apply update_one_twice.
    + apply webhook_fields_keys.
    + apply webhook_fields_twice.
Qed.
